(** * The cash-shift ledger of the restaurant back office

    A shallow embedding of [cash_service.py] (shifts, employee debts,
    handovers, shift statistics) and of the cash block of the order
    completion handler in [admin_handlers.py], with the properties the
    specification states about them.

    Conventions of the embedding.
    - A table with a primary key is a finite map from the key to the row
      ([gmap Z row]); the row record holds the remaining columns.  Where the
      source reads [obj.id] the model uses the key the row was fetched by.
    - The transaction table is only ever appended to and is kept as a list
      in insertion order.
    - Amounts are exact decimals ([Decimal] in the source).  Only addition,
      subtraction and comparison with zero are used on them, so an amount is
      represented by the integer number of its smallest unit ([Z]).
    - A function that may [raise ValueError] is a computation in the monad
      [M]: it receives the session and gives back the session as it is when
      the function is left, together with the value returned or the
      exception raised.  [session.commit()] makes the pending changes durable
      and changes nothing the functions can read back, so it is the identity
      on the model. *)

From stdpp Require Import gmap strings list fin_maps.
From Stdlib Require Import ZArith DecimalString.

Local Open Scope Z_scope.

(** ** Rows of the tables *)

(** Modelled from the spec: [models.py] is not part of the sources at hand;
    the columns of [CashShift] are those the spec lists for a Shift and
    those [cash_service.py] reads and writes. *)
Module CashShift.
Record t : Type := mk {
  employee_id : Z;
  start_time : Z;
  start_cash : option Z;
  is_closed : bool;
  end_time : option Z;
  end_cash_actual : option Z;
  total_sales_cash : Z;
  total_sales_card : Z;
  service_in : Z;
  service_out : Z
}.
End CashShift.

(** Modelled from the spec: [models.py] is absent; a [CashTransaction] has
    the columns its constructor is given in [cash_service.py]. *)
Module CashTransaction.
Record t : Type := mk {
  shift_id : Z;
  amount : Z;
  transaction_type : string;
  comment : string
}.
End CashTransaction.

(** Modelled from the spec: [models.py] is absent; the columns of [Order]
    are the ones the ledger and the completion handler consume. *)
Module Order.
Record t : Type := mk {
  payment_method : string;
  total_price : Z;
  is_cash_turned_in : bool;
  cash_shift_id : option Z;
  courier_id : option Z;
  accepted_by_waiter_id : option Z;
  status_id : Z
}.
End Order.

(** Modelled from the spec: [models.py] is absent; an [Employee] carries the
    messenger account the handler authenticates by, the name used in
    comments and the cash balance owned by the debt ledger. *)
Module Employee.
Record t : Type := mk {
  telegram_user_id : option Z;
  full_name : string;
  cash_balance : Z
}.
End Employee.

(** Modelled from the spec: [models.py] is absent; of an [OrderStatus] the
    handler reads the name and the two flags. *)
Module OrderStatus.
Record t : Type := mk {
  name : string;
  is_completed_status : bool;
  is_cancelled_status : bool
}.
End OrderStatus.

(** Modelled from the spec: [models.py] is absent; a row of the status
    history as the handler builds it. *)
Module OrderStatusHistory.
Record t : Type := mk {
  order_id : Z;
  status_id : Z;
  actor_info : string
}.
End OrderStatusHistory.

(** ** The session *)

Record Session : Type := mkSession {
  shifts : gmap Z CashShift.t;
  transactions : list CashTransaction.t;
  orders : gmap Z Order.t;
  employees : gmap Z Employee.t;
  statuses : gmap Z OrderStatus.t;
  history : list OrderStatusHistory.t
}.

Definition set_shifts (v : gmap Z CashShift.t) (s : Session) : Session :=
  mkSession v (transactions s) (orders s) (employees s) (statuses s) (history s).

Definition set_transactions (v : list CashTransaction.t) (s : Session) : Session :=
  mkSession (shifts s) v (orders s) (employees s) (statuses s) (history s).

Definition set_orders (v : gmap Z Order.t) (s : Session) : Session :=
  mkSession (shifts s) (transactions s) v (employees s) (statuses s) (history s).

Definition set_employees (v : gmap Z Employee.t) (s : Session) : Session :=
  mkSession (shifts s) (transactions s) (orders s) v (statuses s) (history s).

Definition set_history (v : list OrderStatusHistory.t) (s : Session) : Session :=
  mkSession (shifts s) (transactions s) (orders s) (employees s) (statuses s) v.

(** ** Exceptions and the session monad *)

(** The exceptions the modelled code can raise: the [ValueError]s of
    [cash_service.py], one constructor per message, and the errors of using
    [None] as a dictionary or as an object. *)
Inductive PyError : Type :=
  | ShiftAlreadyOpen          (* open_new_shift: the employee already has an open shift *)
  | CashierShiftMissingOrClosed (* process_handover: cashier shift not found or closed *)
  | EmployeeNotFound          (* process_handover: employee not found *)
  | NoOrdersToHandOver        (* process_handover: no orders available for handover *)
  | ShiftMissingOrAlreadyClosed (* close_active_shift: shift not found or already closed *)
  | NoneNotSubscriptable      (* close_active_shift: stats[...] on None *)
  | NoneHasNoAttribute.       (* change_order_status_admin: order.status is None *)

Inductive result (A : Type) : Type :=
  | Return (a : A)
  | Raise (e : PyError).
Arguments Return {A} a.
Arguments Raise {A} e.

Definition M (A : Type) : Type := Session → Session * result A.

Definition ret {A} (a : A) : M A := λ s, (s, Return a).

Definition raise {A} (e : PyError) : M A := λ s, (s, Raise e).

Definition bind {A B} (c : M A) (k : A → M B) : M B :=
  λ s, match c s with
       | (s', Return a) => k a s'
       | (s', Raise e) => (s', Raise e)
       end.

Definition gets {A} (f : Session → A) : M A := λ s, (s, Return (f s)).

Definition modify (f : Session → Session) : M unit := λ s, (f s, Return tt).

Notation "'let*' x := c 'in' k" := (bind c (λ x, k))
  (at level 10, x pattern, c at level 100, k at level 200).
Notation "c ;;; k" := (bind c (λ _, k))
  (at level 100, k at level 200, right associativity).

(** ** Python and SQL idioms *)

(** Truth value of an optional integer ([None] and [0] are false). *)
Definition truthy (v : option Z) : bool :=
  match v with
  | Some n => negb (n =? 0)
  | None => false
  end.

(** The value of an optional integer when it is true, for
    [if v: ... use v ...]. *)
Definition if_truthy (v : option Z) : option Z :=
  match v with
  | Some n => if n =? 0 then None else Some n
  | None => None
  end.

(** [x or Decimal(0)] and [Decimal(x) if x else Decimal(0)] on the result of
    an SQL aggregate. *)
Definition or_zero (v : option Z) : Z :=
  match v with
  | Some n => if n =? 0 then 0 else n
  | None => 0
  end.

(** [str(n)] for an integer. *)
Definition str (n : Z) : string := NilZero.string_of_int (Z.to_int n).

(** [sep.join(parts)]. *)
Fixpoint join (sep : string) (parts : list string) : string :=
  match parts with
  | [] => ""
  | [p] => p
  | p :: rest => p +:+ sep +:+ join sep rest
  end.

Definition sum_list_Z (l : list Z) : Z := foldr Z.add 0 l.

(** [func.sum(col)]: NULL when no row is selected. *)
Definition sql_sum (l : list Z) : option Z :=
  match l with
  | [] => None
  | _ => Some (sum_list_Z l)
  end.

(** [select(T).where(P)]: the rows of the table that satisfy [P]. *)
Definition select_where {A} (P : Z * A → bool) (tbl : gmap Z A) : list (Z * A) :=
  map_to_list (filter (λ r, P r = true) tbl).

(** The key the store gives to a new row of a table: positive and larger
    than every key in use (an auto-incremented primary key). *)
Definition next_id {A} (tbl : gmap Z A) : Z :=
  1 + map_fold (λ k _ acc, Z.max k acc) 0 tbl.

(** [select sum(value) ... group by key]: one row per distinct key. *)
Definition group_sum (rows : list (string * Z)) : gmap string Z :=
  fold_left (λ g r, <[r.1 := default 0 (g !! r.1) + r.2]> g) rows ∅.

(** ** cash_service.py *)

Definition get_open_shift (employee_id : Z) : M (option (Z * CashShift.t)) :=
  gets (λ s, head (select_where
    (λ r, (CashShift.employee_id r.2 =? employee_id) && negb (CashShift.is_closed r.2))
    (shifts s))).

Definition get_any_open_shift : M (option (Z * CashShift.t)) :=
  gets (λ s, head (take 1 (select_where (λ r, negb (CashShift.is_closed r.2)) (shifts s)))).

Definition open_new_shift (now : Z) (employee_id : Z) (start_cash : Z) : M (Z * CashShift.t) :=
  let* active_shift := get_open_shift employee_id in
  match active_shift with
  | Some _ => raise ShiftAlreadyOpen
  | None =>
      let new_shift := CashShift.mk employee_id now (Some start_cash) false None None 0 0 0 0 in
      let* new_id := gets (λ s, next_id (shifts s)) in
      modify (λ s, set_shifts (<[new_id := new_shift]> (shifts s)) s) ;;;
      ret (new_id, new_shift)
  end.

Definition set_cash_shift_id (v : option Z) (o : Order.t) : Order.t :=
  Order.mk (Order.payment_method o) (Order.total_price o) (Order.is_cash_turned_in o)
    v (Order.courier_id o) (Order.accepted_by_waiter_id o) (Order.status_id o).

Definition set_is_cash_turned_in (v : bool) (o : Order.t) : Order.t :=
  Order.mk (Order.payment_method o) (Order.total_price o) v
    (Order.cash_shift_id o) (Order.courier_id o) (Order.accepted_by_waiter_id o)
    (Order.status_id o).

Definition set_status_id (v : Z) (o : Order.t) : Order.t :=
  Order.mk (Order.payment_method o) (Order.total_price o) (Order.is_cash_turned_in o)
    (Order.cash_shift_id o) (Order.courier_id o) (Order.accepted_by_waiter_id o) v.

(** The order object is passed in and handed back with its new fields; the
    caller's commit writes it to the table. *)
Definition link_order_to_shift (order : Order.t) (employee_id : option Z) : M Order.t :=
  if truthy (Order.cash_shift_id order) then ret order
  else
    let* shift :=
      (match if_truthy employee_id with
       | Some employee_id => get_open_shift employee_id
       | None => ret None
       end) in
    let* shift :=
      (match shift with
       | Some _ => ret shift
       | None => get_any_open_shift
       end) in
    match shift with
    | Some sh => ret (set_cash_shift_id (Some sh.1) order)
    | None => ret order
    end.

Definition set_cash_balance (v : Z) (e : Employee.t) : Employee.t :=
  Employee.mk (Employee.telegram_user_id e) (Employee.full_name e) v.

Definition register_employee_debt (order : Order.t) (employee_id : Z) : M Order.t :=
  if negb (String.eqb (Order.payment_method order) "cash") then ret order
  else
    let* employee := gets (λ s, employees s !! employee_id) in
    match employee with
    | None => ret order
    | Some employee =>
        let amount := Order.total_price order in
        modify (λ s, set_employees
          (<[employee_id := set_cash_balance (Employee.cash_balance employee + amount) employee]>
             (employees s)) s) ;;;
        ret (set_is_cash_turned_in false order)
    end.

(** The [where] clause of the handover query. *)
Definition unsettled_in (order_ids : list Z) (r : Z * Order.t) : bool :=
  bool_decide (r.1 ∈ order_ids) && negb (Order.is_cash_turned_in r.2).

(** What one turn of the handover loop does to an order. *)
Definition hand_over (shift_id : Z) (o : Order.t) : Order.t :=
  let o := set_is_cash_turned_in true o in
  if negb (truthy (Order.cash_shift_id o)) then set_cash_shift_id (Some shift_id) o else o.

Definition handover_comment (full_name : string) (order_ids : list Z) : string :=
  "Здача виручки: " +:+ full_name +:+ " (Зам: " +:+ join ", " (str <$> order_ids) +:+ ")".

Definition process_handover (cashier_shift_id employee_id : Z) (order_ids : list Z) : M Z :=
  let* shift := gets (λ s, shifts s !! cashier_shift_id) in
  match shift with
  | None => raise CashierShiftMissingOrClosed
  | Some shift =>
    if CashShift.is_closed shift then raise CashierShiftMissingOrClosed
    else
      let* employee := gets (λ s, employees s !! employee_id) in
      match employee with
      | None => raise EmployeeNotFound
      | Some employee =>
        let* selected := gets (λ s, select_where (unsettled_in order_ids) (orders s)) in
        match selected with
        | [] => raise NoOrdersToHandOver
        | _ =>
          let* total_amount := (λ s,
            let '(total, tbl) :=
              fold_left (λ acc r,
                  (acc.1 + Order.total_price r.2,
                   <[r.1 := hand_over cashier_shift_id r.2]> acc.2))
                selected (0, orders s) in
            (set_orders tbl s, Return total)) in
          let balance := Employee.cash_balance employee - total_amount in
          let balance := if balance <? 0 then 0 else balance in
          modify (λ s, set_employees
            (<[employee_id := set_cash_balance balance employee]> (employees s)) s) ;;;
          let tx := CashTransaction.mk cashier_shift_id total_amount "handover"
                      (handover_comment (Employee.full_name employee) order_ids) in
          modify (λ s, set_transactions (transactions s ++ [tx]) s) ;;;
          ret total_amount
        end
      end
  end.

Record ShiftStatistics : Type := mkStats {
  stat_shift_id : Z;
  stat_start_time : Z;
  stat_start_cash : Z;
  stat_total_sales_cash : Z;
  stat_total_sales_card : Z;
  stat_total_sales : Z;
  stat_service_in : Z;
  stat_service_out : Z;
  stat_handover_in : Z;
  stat_theoretical_cash : Z
}.

(** [sales_query]: totals of the orders linked to the shift, per payment
    method. *)
Definition sales_query (shift_id : Z) (s : Session) : list (string * Z) :=
  map_to_list (group_sum
    ((λ r, (Order.payment_method r.2, Order.total_price r.2)) <$>
       select_where (λ r, bool_decide (Order.cash_shift_id r.2 = Some shift_id)) (orders s))).

(** The loop over [sales_data], the rows of [sales_query]: (cash sales,
    card sales). *)
Definition sales_loop (rows : list (string * Z)) : Z * Z :=
  fold_left (λ acc row,
      let amount_decimal := or_zero (Some row.2) in
      if String.eqb row.1 "cash" then (acc.1 + amount_decimal, acc.2)
      else if String.eqb row.1 "card" then (acc.1, acc.2 + amount_decimal)
      else acc)
    rows (0, 0).

(** [trans_query]: amounts of the transactions of the shift, per type. *)
Definition trans_query (shift_id : Z) (s : Session) : list (string * Z) :=
  map_to_list (group_sum
    ((λ t, (CashTransaction.transaction_type t, CashTransaction.amount t)) <$>
       List.filter (λ t, CashTransaction.shift_id t =? shift_id) (transactions s))).

(** The loop over [trans_data], the rows of [trans_query]: (service in,
    service out, handover in). *)
Definition trans_loop (rows : list (string * Z)) : Z * Z * Z :=
  fold_left (λ acc row,
      let '(service_in, service_out, handover_in) := acc in
      let amount_decimal := or_zero (Some row.2) in
      if String.eqb row.1 "in" then (service_in + amount_decimal, service_out, handover_in)
      else if String.eqb row.1 "out" then (service_in, service_out + amount_decimal, handover_in)
      else if String.eqb row.1 "handover" then (service_in, service_out, handover_in + amount_decimal)
      else acc)
    rows (0, 0, 0).

(** [query_collected_cash]. *)
Definition query_collected_cash (shift_id : Z) (s : Session) : option Z :=
  sql_sum ((λ r, Order.total_price r.2) <$>
    select_where (λ r,
        bool_decide (Order.cash_shift_id r.2 = Some shift_id)
        && String.eqb (Order.payment_method r.2) "cash"
        && Order.is_cash_turned_in r.2)
      (orders s)).

Definition get_shift_statistics (shift_id : Z) : M (option ShiftStatistics) :=
  let* shift := gets (λ s, shifts s !! shift_id) in
  match shift with
  | None => ret None
  | Some shift =>
      let* sales_data := gets (sales_query shift_id) in
      let '(total_sales_cash_orders, total_card_sales) := sales_loop sales_data in
      let* trans_data := gets (trans_query shift_id) in
      let '(service_in, service_out, handover_in) := trans_loop trans_data in
      let* collected_cash_res := gets (query_collected_cash shift_id) in
      let total_collected_cash_orders := or_zero collected_cash_res in
      let start_cash_decimal := default 0 (CashShift.start_cash shift) in
      let theoretical_cash :=
        start_cash_decimal + total_collected_cash_orders + service_in - service_out in
      ret (Some (mkStats shift_id (CashShift.start_time shift) start_cash_decimal
                   total_sales_cash_orders total_card_sales
                   (total_sales_cash_orders + total_card_sales)
                   service_in service_out handover_in theoretical_cash))
  end.

Definition close_active_shift (now : Z) (shift_id : Z) (end_cash_actual : Z)
  : M CashShift.t :=
  let* shift := gets (λ s, shifts s !! shift_id) in
  match shift with
  | None => raise ShiftMissingOrAlreadyClosed
  | Some shift =>
    if CashShift.is_closed shift then raise ShiftMissingOrAlreadyClosed
    else
      let* stats := get_shift_statistics shift_id in
      match stats with
      | None => raise NoneNotSubscriptable
      | Some stats =>
          let shift := CashShift.mk (CashShift.employee_id shift) (CashShift.start_time shift)
                         (CashShift.start_cash shift) true (Some now) (Some end_cash_actual)
                         (stat_total_sales_cash stats) (stat_total_sales_card stats)
                         (stat_service_in stats) (stat_service_out stats) in
          modify (λ s, set_shifts (<[shift_id := shift]> (shifts s)) s) ;;;
          ret shift
      end
  end.

Definition add_shift_transaction (shift_id : Z) (amount : Z) (t_type comment : string)
  : M unit :=
  let tx := CashTransaction.mk shift_id amount t_type comment in
  modify (λ s, set_transactions (transactions s ++ [tx]) s) ;;;
  ret tt.

(** ** admin_handlers.py: the status change of an order *)

(** What the handler adds to its answer about the money of the order. *)
Inductive MoneyNote : Type :=
  | DebtRecorded    (* the money is recorded as a debt of the performer *)
  | MoneyCounted    (* the money is accounted for *)
  | NoNote.

(** The alerts and the final answer of the callback. *)
Inductive Answer : Type :=
  | AuthorizationError
  | OrderNotFound
  | StatusAlreadySet
  | OrderAlreadyClosed
  | StatusNotFound
  | StatusChanged (status_name : string) (note : MoneyNote).

(** The block of the handler that runs when the new status completes the
    order. *)
Definition complete_order (order : Order.t) (operator_id : Z) : M Order.t :=
  let* order := link_order_to_shift order (Some operator_id) in
  if String.eqb (Order.payment_method order) "cash" then
    match if_truthy (Order.courier_id order) with
    | Some courier_id => register_employee_debt order courier_id
    | None =>
        match if_truthy (Order.accepted_by_waiter_id order) with
        | Some waiter_id => register_employee_debt order waiter_id
        | None => ret (set_is_cash_turned_in true order)
        end
    end
  else ret order.

(** The handler without its messages to the messenger: [user_id] is the
    account of the caller, [order_id] and [new_status_id] are the two
    numbers of the callback data. *)
Definition change_order_status_admin (user_id order_id new_status_id : Z) : M Answer :=
  let* employee := gets (λ s, head (select_where
    (λ r, bool_decide (Employee.telegram_user_id r.2 = Some user_id)) (employees s))) in
  match employee with
  | None => ret AuthorizationError
  | Some employee =>
    let actor_info := "Оператор: " +:+ Employee.full_name employee.2 in
    let* order := gets (λ s, orders s !! order_id) in
    match order with
    | None => ret OrderNotFound
    | Some order =>
      if Order.status_id order =? new_status_id then ret StatusAlreadySet
      else
        let* status := gets (λ s, statuses s !! Order.status_id order) in
        match status with
        | None => raise NoneHasNoAttribute
        | Some status =>
          if OrderStatus.is_completed_status status || OrderStatus.is_cancelled_status status
          then ret OrderAlreadyClosed
          else
            let* new_status := gets (λ s, statuses s !! new_status_id) in
            match new_status with
            | None => ret StatusNotFound
            | Some new_status =>
              let* order :=
                (if OrderStatus.is_completed_status new_status
                 then complete_order order employee.1
                 else ret order) in
              let order := set_status_id new_status_id order in
              let history_entry := OrderStatusHistory.mk order_id new_status_id actor_info in
              modify (λ s, set_history (history s ++ [history_entry]) s) ;;;
              modify (λ s, set_orders (<[order_id := order]> (orders s)) s) ;;;
              let note :=
                if OrderStatus.is_completed_status new_status
                   && String.eqb (Order.payment_method order) "cash"
                   && negb (Order.is_cash_turned_in order)
                then DebtRecorded
                else if OrderStatus.is_completed_status new_status then MoneyCounted
                else NoNote in
              ret (StatusChanged (OrderStatus.name new_status) note)
            end
        end
    end
  end.

(** ** admin_handlers.py: the assignment of a courier *)

Definition set_courier_id (v : option Z) (o : Order.t) : Order.t :=
  Order.mk (Order.payment_method o) (Order.total_price o) (Order.is_cash_turned_in o)
    (Order.cash_shift_id o) v (Order.accepted_by_waiter_id o) (Order.status_id o).

(** The alerts and the final answer of the callback. *)
Inductive AssignAnswer : Type :=
  | AssignOrderNotFound
  | AssignOrderClosed
  | AssignCourierNotFound
  | CourierAssigned (courier_name : string).

(** The handler without its messages to the messenger: [order_id] and
    [courier_id] are the two numbers of the callback data, 0 standing for
    "no courier". *)
Definition assign_courier (order_id courier_id : Z) : M AssignAnswer :=
  let* order := gets (λ s, orders s !! order_id) in
  match order with
  | None => ret AssignOrderNotFound
  | Some order =>
    let* status := gets (λ s, statuses s !! Order.status_id order) in
    match status with
    | None => raise NoneHasNoAttribute
    | Some status =>
      if OrderStatus.is_completed_status status || OrderStatus.is_cancelled_status status
      then ret AssignOrderClosed
      else if courier_id =? 0 then
        modify (λ s, set_orders (<[order_id := set_courier_id None order]> (orders s)) s) ;;;
        ret (CourierAssigned "Не призначений")
      else
        let* new_courier := gets (λ s, employees s !! courier_id) in
        match new_courier with
        | None => ret AssignCourierNotFound
        | Some new_courier =>
            modify (λ s, set_orders
              (<[order_id := set_courier_id (Some courier_id) order]> (orders s)) s) ;;;
            ret (CourierAssigned (Employee.full_name new_courier))
        end
    end
  end.

(** ** admin_handlers.py: the total of an edited order *)

(** Modelled from the spec: [models.py] is absent; of a [Product] the
    recalculation reads the name and the price. *)
Module Product.
Record t : Type := mk {
  name : string;
  price : Z
}.
End Product.

(** [products_dict] is the dictionary of the order, name to quantity, as the
    list of its items; the session is read for its product table only. *)
Definition recalculate_order_total (products_dict : list (string * Z))
    (products : gmap Z Product.t) : Z :=
  match products_dict with
  | [] => 0
  | _ =>
      let products_res :=
        select_where (λ r, bool_decide (Product.name r.2 ∈ products_dict.*1)) products in
      let db_products :=
        fold_left (λ (d : gmap string Product.t) r, <[Product.name r.2 := r.2]> d)
          products_res ∅ in
      fold_left (λ total item,
          match db_products !! item.1 with
          | Some product => total + Product.price product * item.2
          | None => total
          end)
        products_dict 0
  end.

(** ** Sequences of ledger operations *)

(** One call into the ledger.  [OpLinkOrder] and [OpRegisterDebt] stand for
    a caller that fetches the order, calls the function and commits. *)
Inductive Op : Type :=
  | OpOpenShift (now employee_id start_cash : Z)
  | OpCloseShift (now shift_id end_cash_actual : Z)
  | OpLinkOrder (order_id : Z) (employee_id : option Z)
  | OpRegisterDebt (order_id employee_id : Z)
  | OpHandover (cashier_shift_id employee_id : Z) (order_ids : list Z)
  | OpAddTransaction (shift_id amount : Z) (t_type comment : string)
  | OpChangeStatus (user_id order_id new_status_id : Z).

(** Fetch an order, apply [f] to it and write it back. *)
Definition with_order (order_id : Z) (f : Order.t → M Order.t) : M unit :=
  let* order := gets (λ s, orders s !! order_id) in
  match order with
  | None => ret tt
  | Some order =>
      let* order := f order in
      modify (λ s, set_orders (<[order_id := order]> (orders s)) s)
  end.

Definition forget {A} (c : M A) : M unit := c ;;; ret tt.

Definition run_op (op : Op) : M unit :=
  match op with
  | OpOpenShift now e c => forget (open_new_shift now e c)
  | OpCloseShift now sh c => forget (close_active_shift now sh c)
  | OpLinkOrder o e => with_order o (λ order, link_order_to_shift order e)
  | OpRegisterDebt o e => with_order o (λ order, register_employee_debt order e)
  | OpHandover sh e ids => forget (process_handover sh e ids)
  | OpAddTransaction sh a t c => add_shift_transaction sh a t c
  | OpChangeStatus u o st => forget (change_order_status_admin u o st)
  end.

(** The session after a sequence of calls; a call that raises leaves the
    session as it was when the exception left the function, and the next
    call runs on it. *)
Definition run_ops (ops : list Op) (s : Session) : Session :=
  fold_left (λ s op, (run_op op s).1) ops s.

(** ** Notions used in the statements *)

(** The amount a handover of [order_ids] collects from the order table. *)
Definition handover_total (order_ids : list Z) (tbl : gmap Z Order.t) : Z :=
  sum_list_Z ((λ r, Order.total_price r.2) <$> select_where (unsettled_in order_ids) tbl).

(** The order table after a handover of [order_ids] to the shift. *)
Definition handed_over (shift_id : Z) (order_ids : list Z) (tbl : gmap Z Order.t)
  : gmap Z Order.t :=
  map_imap (λ k o, Some (if unsettled_in order_ids (k, o) then hand_over shift_id o else o)) tbl.

(** The session a successful handover leaves. *)
Definition after_handover (shift_id employee_id : Z) (order_ids : list Z)
    (employee : Employee.t) (s : Session) : Session :=
  let total := handover_total order_ids (orders s) in
  mkSession (shifts s)
    (transactions s ++
       [CashTransaction.mk shift_id total "handover"
          (handover_comment (Employee.full_name employee) order_ids)])
    (handed_over shift_id order_ids (orders s))
    (<[employee_id := set_cash_balance (Z.max 0 (Employee.cash_balance employee - total)) employee]>
       (employees s))
    (statuses s) (history s).

(** What the ledger may do to an order: it may set its flags, and its link
    as long as the order has none; it never touches the amount or the
    payment method. *)
Definition order_step (o o' : Order.t) : Prop :=
  Order.payment_method o' = Order.payment_method o ∧
  Order.total_price o' = Order.total_price o ∧
  (truthy (Order.cash_shift_id o) = true → Order.cash_shift_id o' = Order.cash_shift_id o).

(** What registering the debt of [order] may do to the session: nothing, or
    add the total of the order to the balance of one employee. *)
Definition debt_step (order : Order.t) (s s' : Session) : Prop :=
  s' = s ∨
  ∃ (e : Z) (employee : Employee.t),
    employees s !! e = Some employee ∧
    s' = set_employees
           (<[e := set_cash_balance (Employee.cash_balance employee + Order.total_price order)
                     employee]> (employees s)) s.

(** The shift [open_new_shift] creates. *)
Definition new_shift (now employee_id start_cash : Z) : CashShift.t :=
  CashShift.mk employee_id now (Some start_cash) false None None 0 0 0 0.

(** The employee has a shift that is not closed. *)
Definition has_open_shift (employee_id : Z) (s : Session) : Prop :=
  ∃ (k : Z) (shift : CashShift.t),
    shifts s !! k = Some shift ∧
    CashShift.employee_id shift = employee_id ∧
    CashShift.is_closed shift = false.

(** The effect one call into the ledger can have on the session. *)
Inductive ledger_step (s : Session) : Session → Prop :=
  | step_none : ledger_step s s
  | step_open (now employee_id start_cash : Z) :
      ¬ has_open_shift employee_id s →
      ledger_step s
        (set_shifts (<[next_id (shifts s) := new_shift now employee_id start_cash]> (shifts s)) s)
  | step_close (shift_id : Z) (shift closed : CashShift.t) :
      shifts s !! shift_id = Some shift →
      CashShift.is_closed shift = false →
      CashShift.employee_id closed = CashShift.employee_id shift →
      CashShift.is_closed closed = true →
      ledger_step s (set_shifts (<[shift_id := closed]> (shifts s)) s)
  | step_order (order_id : Z) (order order' : Order.t) (s1 : Session)
        (h : list OrderStatusHistory.t) :
      orders s !! order_id = Some order →
      order_step order order' →
      (s1 = s ∨ ∃ linked, order_step order linked ∧ debt_step linked s s1) →
      ledger_step s (set_orders (<[order_id := order']> (orders s1)) (set_history h s1))
  | step_handover (shift_id employee_id : Z) (order_ids : list Z)
        (shift : CashShift.t) (employee : Employee.t) :
      shifts s !! shift_id = Some shift →
      CashShift.is_closed shift = false →
      employees s !! employee_id = Some employee →
      ledger_step s (after_handover shift_id employee_id order_ids employee s)
  | step_transaction (tx : CashTransaction.t) :
      ledger_step s (set_transactions (transactions s ++ [tx]) s).

(** The order table [t'] holds the orders of [t], each as the ledger may
    have left it. *)
Definition orders_step (t t' : gmap Z Order.t) : Prop :=
  ∀ k, option_Forall2 order_step (t !! k) (t' !! k).



(** Each employee has at most one shift that is not closed. *)
Definition one_open_shift (s : Session) : Prop :=
  ∀ k1 k2 shift1 shift2,
    shifts s !! k1 = Some shift1 →
    shifts s !! k2 = Some shift2 →
    CashShift.is_closed shift1 = false →
    CashShift.is_closed shift2 = false →
    CashShift.employee_id shift1 = CashShift.employee_id shift2 →
    k1 = k2.

(** The sum of the totals of the cash orders linked to the shift whose cash
    is turned in. *)
Definition collected_cash_orders (shift_id : Z) (s : Session) : Z :=
  sum_list_Z ((λ r, Order.total_price r.2) <$>
    select_where (λ r,
        bool_decide (Order.cash_shift_id r.2 = Some shift_id)
        && String.eqb (Order.payment_method r.2) "cash"
        && Order.is_cash_turned_in r.2)
      (orders s)).

(** The sum of the amounts of the transactions of the shift that have the
    type [kind]. *)
Definition transactions_total (shift_id : Z) (kind : string) (s : Session) : Z :=
  sum_list_Z (CashTransaction.amount <$>
    List.filter (λ t, (CashTransaction.shift_id t =? shift_id)
                      && String.eqb (CashTransaction.transaction_type t) kind)
      (transactions s)).

(** The sum of the values of the rows that have the key [k]. *)
Definition key_total (k : string) (rows : list (string * Z)) : Z :=
  sum_list_Z ((λ r, if String.eqb r.1 k then r.2 else 0) <$> rows).

(** The shift row [close_active_shift] writes: the shift with its end
    stamped and the totals of the report cached. *)
Definition closed_shift (now end_cash_actual : Z) (stats : ShiftStatistics)
    (shift : CashShift.t) : CashShift.t :=
  CashShift.mk (CashShift.employee_id shift) (CashShift.start_time shift)
    (CashShift.start_cash shift) true (Some now) (Some end_cash_actual)
    (stat_total_sales_cash stats) (stat_total_sales_card stats)
    (stat_service_in stats) (stat_service_out stats).

(** The sum of the totals of the orders linked to the shift that are paid
    by [method], turned in or not. *)
Definition sales_total (shift_id : Z) (method : string) (s : Session) : Z :=
  sum_list_Z ((λ r, Order.total_price r.2) <$>
    select_where (λ r,
        bool_decide (Order.cash_shift_id r.2 = Some shift_id)
        && String.eqb (Order.payment_method r.2) method)
      (orders s)).

(** The cash a handover of [order_ids] brings into the drawer of the shift:
    the totals of the cash orders of the batch that are not turned in and
    are linked to the shift or to none. *)
Definition handover_cash (shift_id : Z) (order_ids : list Z) (tbl : gmap Z Order.t) : Z :=
  sum_list_Z ((λ r, Order.total_price r.2) <$>
    select_where (λ r,
        unsettled_in order_ids r
        && String.eqb (Order.payment_method r.2) "cash"
        && (bool_decide (Order.cash_shift_id r.2 = Some shift_id)
            || negb (truthy (Order.cash_shift_id r.2))))
      tbl).

(** The sum of the weight [w] over the rows of a table. *)
Definition table_sum {A} (w : Z * A → Z) (tbl : gmap Z A) : Z :=
  sum_list_Z (w <$> map_to_list tbl).

(** The money note of the handler's answer for the order as it is saved. *)
Definition money_note (new_status : OrderStatus.t) (order : Order.t) : MoneyNote :=
  if OrderStatus.is_completed_status new_status
     && String.eqb (Order.payment_method order) "cash"
     && negb (Order.is_cash_turned_in order)
  then DebtRecorded
  else if OrderStatus.is_completed_status new_status then MoneyCounted
  else NoNote.

(** The user is the messenger account of some employee. *)
Definition is_operator (user_id : Z) (s : Session) : Prop :=
  ∃ (k : Z) (employee : Employee.t),
    employees s !! k = Some employee ∧ Employee.telegram_user_id employee = Some user_id.

(** The price of the products that have the name [n], summed. *)
Definition named_price (n : string) (products : gmap Z Product.t) : Z :=
  table_sum (λ r, if String.eqb (Product.name r.2) n then Product.price r.2 else 0) products.

(** No two products have the same name. *)
Definition unique_names (products : gmap Z Product.t) : Prop :=
  ∀ k1 k2 p1 p2,
    products !! k1 = Some p1 → products !! k2 = Some p2 →
    Product.name p1 = Product.name p2 → k1 = k2.

(** A menu of three products. *)
Definition menu : gmap Z Product.t :=
  {[1 := Product.mk "Borscht" 95; 2 := Product.mk "Tea" 30; 3 := Product.mk "Cake" 70]}.

(** ** Sessions of the scenarios *)

Definition one_order_shift : CashShift.t :=
  CashShift.mk 7 0 (Some 500) false None None 0 0 0 0.

Definition one_order_order : Order.t :=
  Order.mk "cash" 150 false None (Some 3) None 1.

Definition one_order_employee : Employee.t := Employee.mk None "E" 150.

Definition one_order_session : Session :=
  mkSession {[1 := one_order_shift]} [] {[10 := one_order_order]}
    {[3 := one_order_employee]} ∅ [].

(** An employee hands over two orders, one of them paid by card. *)
Definition card_order : Order.t := Order.mk "card" 80 false None (Some 3) None 1.

Definition card_session : Session :=
  mkSession {[1 := one_order_shift]} []
    {[10 := one_order_order; 11 := card_order]}
    {[3 := one_order_employee]} ∅ [].

(** Every order of the batch is already turned in. *)
Definition settled_order : Order.t := Order.mk "cash" 150 true (Some 1) (Some 3) None 1.

Definition settled_session : Session :=
  mkSession {[1 := one_order_shift]} [] {[10 := settled_order]}
    {[3 := one_order_employee]} ∅ [].

(** A courier collects two orders and hands over more than the debt: the
    order 12 was never registered as a debt of the courier. *)
Definition over_handover_session : Session :=
  mkSession {[1 := one_order_shift]} []
    {[10 := Order.mk "cash" 150 false None (Some 3) None 1;
      12 := Order.mk "cash" 70 false None None None 1]}
    {[3 := Employee.mk None "E" 0]} ∅ [].

Definition over_handover_ops : list Op :=
  [OpRegisterDebt 10 3; OpHandover 1 3 [10; 12]].

(** An order linked to shift 1 while a second shift is open. *)
Definition linked_order : Order.t := Order.mk "cash" 150 false (Some 1) (Some 3) None 1.

Definition two_shift_session : Session :=
  mkSession
    {[1 := one_order_shift; 2 := CashShift.mk 8 0 (Some 0) false None None 0 0 0 0]}
    [] {[10 := linked_order]} {[3 := one_order_employee]} ∅ [].

(** A shift opened with 500 in the drawer, one cash order of 200 turned in
    and linked to it, one withdrawal of 50. *)
Definition statistics_session : Session :=
  mkSession
    {[1 := CashShift.mk 7 0 (Some 500) false None None 0 0 0 0]}
    [CashTransaction.mk 1 50 "out" "withdrawal"]
    {[10 := Order.mk "cash" 200 true (Some 1) None None 2]}
    ∅ ∅ [].

(** A closed shift. *)
Definition closed_session : Session :=
  mkSession
    {[1 := CashShift.mk 7 0 (Some 500) true (Some 9) (Some 500) 0 0 0 0]}
    [] ∅ ∅ ∅ [].

(** An operator completes a cash order taken away by the customer: no
    courier, no waiter.  Status 1 is open, status 2 completes the order. *)
Definition pickup_order : Order.t := Order.mk "cash" 120 false None None None 1.

Definition pickup_operator : Employee.t := Employee.mk (Some 777) "Operator" 0.


(** A courier with an earlier debt of 40 delivers the cash order 10. *)
Definition round_trip_session : Session :=
  mkSession {[1 := one_order_shift]} []
    {[10 := Order.mk "cash" 150 false None (Some 3) None 1;
      11 := Order.mk "card" 80 true (Some 1) None None 2]}
    {[3 := Employee.mk None "E" 40; 4 := Employee.mk None "F" 25]} ∅ [].

(** A courier (employee 3) is assigned to the cash order 20, a waiter
    (employee 4) accepted the card order 21; order 22 is completed. *)
Definition handler_session : Session :=
  mkSession {[1 := one_order_shift]} []
    {[20 := Order.mk "cash" 120 false None (Some 3) (Some 4) 1;
      21 := Order.mk "card" 90 false None None (Some 4) 1;
      22 := Order.mk "cash" 60 true (Some 1) None None 2]}
    {[3 := Employee.mk None "Courier" 10;
      4 := Employee.mk None "Waiter" 0;
      7 := pickup_operator]}
    {[1 := OrderStatus.mk "new" false false;
      2 := OrderStatus.mk "done" true false;
      3 := OrderStatus.mk "cooking" false false]}
    [].

(** * Properties *)

(** Unfold the operations of the session monad. *)
Ltac unfold_M := unfold bind, gets, modify, ret, raise in *; simpl in *.

(** ** Sums and queries *)

Lemma sum_list_Z_app (l1 l2 : list Z) :
  sum_list_Z (l1 ++ l2) = sum_list_Z l1 + sum_list_Z l2.
Proof. unfold sum_list_Z. induction l1 as [|x l1 IH]; simpl; lia. Qed.

Lemma sum_list_Z_cons (x : Z) (l : list Z) : sum_list_Z (x :: l) = x + sum_list_Z l.
Proof. reflexivity. Qed.

#[local] Instance sum_list_Z_perm : Proper ((≡ₚ) ==> (=)) sum_list_Z.
Proof.
  unfold sum_list_Z. intros l1 l2 Hperm.
  induction Hperm; simpl; lia.
Qed.

Lemma or_zero_sql_sum (l : list Z) : or_zero (sql_sum l) = sum_list_Z l.
Proof.
  destruct l as [|x l]; [done|]. unfold sql_sum, or_zero.
  destruct (Z.eqb_spec (sum_list_Z (x :: l)) 0); congruence.
Qed.

Lemma or_zero_Some (n : Z) : or_zero (Some n) = n.
Proof. unfold or_zero. destruct (Z.eqb_spec n 0); congruence. Qed.

Lemma head_take_1 {A} (l : list A) : head (take 1 l) = head l.
Proof. by destruct l. Qed.

Section select.
Context {A : Type} (P : Z * A → bool).

Lemma elem_of_select_where (tbl : gmap Z A) (k : Z) (v : A) :
  (k, v) ∈ select_where P tbl ↔ tbl !! k = Some v ∧ P (k, v) = true.
Proof.
  unfold select_where. by rewrite elem_of_map_to_list, map_lookup_filter_Some.
Qed.

Lemma select_where_nil (tbl : gmap Z A) :
  select_where P tbl = [] ↔ ∀ k v, tbl !! k = Some v → P (k, v) = false.
Proof.
  split.
  - intros Hnil k v Hk. destruct (P (k, v)) eqn:HP; [|done].
    assert ((k, v) ∈ select_where P tbl) as Hin by by apply elem_of_select_where.
    rewrite Hnil in Hin. by apply elem_of_nil in Hin.
  - intros Hall. apply elem_of_nil_inv. intros [k v] Hin.
    apply elem_of_select_where in Hin as [Hk HP].
    rewrite (Hall _ _ Hk) in HP. done.
Qed.

Lemma head_select_where_Some (tbl : gmap Z A) (r : Z * A) :
  head (select_where P tbl) = Some r → tbl !! r.1 = Some r.2 ∧ P r = true.
Proof.
  intros Hhead. destruct r as [k v]. apply elem_of_select_where.
  destruct (select_where P tbl) as [|r' l]; simplify_eq/=. apply list_elem_of_here.
Qed.

Lemma head_select_where_None (tbl : gmap Z A) :
  head (select_where P tbl) = None ↔ ∀ k v, tbl !! k = Some v → P (k, v) = false.
Proof. by rewrite head_None, select_where_nil. Qed.

Lemma NoDup_fst_select_where (tbl : gmap Z A) : NoDup (select_where P tbl).*1.
Proof. apply NoDup_fst_map_to_list. Qed.

Lemma list_to_map_select_where (tbl : gmap Z A) (k : Z) :
  (list_to_map (select_where P tbl) : gmap Z A) !! k
  = match tbl !! k with
    | Some v => if P (k, v) then Some v else None
    | None => None
    end.
Proof.
  unfold select_where. rewrite list_to_map_to_list, map_lookup_filter.
  destruct (tbl !! k) as [v|]; simpl; [|done].
  case_guard as HP; simpl in HP; [by rewrite HP|].
  by destruct (P (k, v)).
Qed.

(** Selecting from a table with one more row. *)
Lemma select_where_delete (tbl : gmap Z A) (k : Z) (v : A) :
  tbl !! k = Some v →
  select_where P tbl ≡ₚ
    (if P (k, v) then [(k, v)] else []) ++ select_where P (delete k tbl).
Proof.
  intros Hk. unfold select_where. rewrite map_filter_delete.
  destruct (P (k, v)) eqn:HP; simpl.
  - symmetry. apply map_to_list_delete. by apply map_lookup_filter_Some.
  - rewrite delete_id; [done|].
    apply map_lookup_filter_None. right. intros v' Hv'. simplify_eq. by rewrite HP.
Qed.

End select.

(** ** Keys issued by the store *)

Lemma next_id_bound {A} (tbl : gmap Z A) :
  0 < next_id tbl ∧ ∀ k, is_Some (tbl !! k) → k < next_id tbl.
Proof.
  unfold next_id.
  apply (map_fold_weak_ind (λ r (m : gmap Z A), 0 < 1 + r ∧ ∀ k, is_Some (m !! k) → k < 1 + r)).
  - split; [lia|]. intros k [v Hv]. by rewrite lookup_empty in Hv.
  - intros i x m r Hi [Hpos Hall]. split; [lia|].
    intros k Hk. destruct (decide (i = k)) as [->|Hne]; [lia|].
    rewrite lookup_insert_ne in Hk by done. specialize (Hall k Hk). lia.
Qed.

Lemma next_id_fresh {A} (tbl : gmap Z A) : tbl !! next_id tbl = None.
Proof.
  destruct (tbl !! next_id tbl) eqn:Hl; [|done].
  pose proof (proj2 (next_id_bound tbl) (next_id tbl) (mk_is_Some _ _ Hl)). lia.
Qed.

(** ** The handover *)

Lemma handover_loop (shift_id : Z) (l : list (Z * Order.t)) (a : Z) (tbl : gmap Z Order.t) :
  fold_left (λ (acc : Z * gmap Z Order.t) (r : Z * Order.t),
      (acc.1 + Order.total_price r.2, <[r.1 := hand_over shift_id r.2]> acc.2))
    l (a, tbl)
  = (a + sum_list_Z ((λ r, Order.total_price r.2) <$> l),
     fold_left (λ (t : gmap Z Order.t) (r : Z * Order.t), <[r.1 := hand_over shift_id r.2]> t) l tbl).
Proof.
  revert a tbl. induction l as [|r l IH]; intros a tbl.
  - cbn. f_equal. lia.
  - rewrite fmap_cons, sum_list_Z_cons. cbn [fold_left]. rewrite IH. f_equal. cbn. lia.
Qed.

Lemma lookup_handover_loop (shift_id : Z) (l : list (Z * Order.t)) (tbl : gmap Z Order.t) (k : Z) :
  NoDup l.*1 →
  fold_left (λ (t : gmap Z Order.t) (r : Z * Order.t), <[r.1 := hand_over shift_id r.2]> t) l tbl !! k
  = match (list_to_map l : gmap Z Order.t) !! k with
    | Some o => Some (hand_over shift_id o)
    | None => tbl !! k
    end.
Proof.
  revert tbl. induction l as [|[k0 o0] l IH]; intros tbl Hnd; simpl.
  - by rewrite lookup_empty.
  - apply NoDup_cons in Hnd as [Hk0 Hnd]. rewrite IH by done.
    destruct (decide (k0 = k)) as [->|Hne].
    + rewrite lookup_insert_eq.
      rewrite (proj1 (not_elem_of_list_to_map l k)) by done.
      by rewrite lookup_insert_eq.
    + rewrite !lookup_insert_ne by done. done.
Qed.

Lemma handover_loop_table (shift_id : Z) (order_ids : list Z) (tbl : gmap Z Order.t) :
  fold_left (λ (t : gmap Z Order.t) (r : Z * Order.t), <[r.1 := hand_over shift_id r.2]> t)
    (select_where (unsettled_in order_ids) tbl) tbl
  = handed_over shift_id order_ids tbl.
Proof.
  apply map_eq. intros k.
  rewrite lookup_handover_loop by apply NoDup_fst_select_where.
  rewrite list_to_map_select_where. unfold handed_over. rewrite map_lookup_imap.
  destruct (tbl !! k) as [o|]; simpl; [|done].
  by destruct (unsettled_in order_ids (k, o)).
Qed.

Lemma clamp_max (b : Z) : (if b <? 0 then 0 else b) = Z.max 0 b.
Proof. destruct (Z.ltb_spec b 0); lia. Qed.

(** A handover to an open shift, from a known employee, with at least one
    order to settle, succeeds and leaves [after_handover]. *)
Lemma process_handover_success (s : Session) (shift_id employee_id : Z) (order_ids : list Z)
    (shift : CashShift.t) (employee : Employee.t) :
  shifts s !! shift_id = Some shift →
  CashShift.is_closed shift = false →
  employees s !! employee_id = Some employee →
  select_where (unsettled_in order_ids) (orders s) ≠ [] →
  process_handover shift_id employee_id order_ids s
  = (after_handover shift_id employee_id order_ids employee s,
     Return (handover_total order_ids (orders s))).
Proof.
  intros Hshift Hopen Hemp Hsel.
  unfold process_handover, bind, gets, modify, ret, raise. simpl.
  rewrite Hshift, Hopen, Hemp.
  destruct (select_where (unsettled_in order_ids) (orders s)) as [|r l] eqn:Hl; [done|].
  rewrite <- Hl. rewrite handover_loop, handover_loop_table. simpl.
  rewrite clamp_max. unfold after_handover, handover_total. simpl.
  rewrite Z.add_0_l. done.
Qed.

(** Every way a handover can fail, and that it then leaves the session
    alone. *)
Lemma process_handover_raise (s : Session) (shift_id employee_id : Z) (order_ids : list Z)
    (e : PyError) :
  (process_handover shift_id employee_id order_ids s).2 = Raise e →
  (process_handover shift_id employee_id order_ids s).1 = s.
Proof.
  unfold process_handover, bind, gets, modify, ret, raise. simpl.
  destruct (shifts s !! shift_id) as [shift|]; [|done].
  destruct (CashShift.is_closed shift); [done|].
  destruct (employees s !! employee_id) as [employee|]; [|done].
  destruct (select_where (unsettled_in order_ids) (orders s)) as [|r l] eqn:Hl; [done|].
  rewrite <- Hl. rewrite handover_loop. simpl. done.
Qed.

Lemma lookup_handed_over (shift_id : Z) (order_ids : list Z) (tbl : gmap Z Order.t) (k : Z) :
  handed_over shift_id order_ids tbl !! k
  = (λ o, if unsettled_in order_ids (k, o) then hand_over shift_id o else o) <$> tbl !! k.
Proof. unfold handed_over. rewrite map_lookup_imap. by destruct (tbl !! k). Qed.

Lemma handover_total_delete (order_ids : list Z) (tbl : gmap Z Order.t) (k : Z) (o : Order.t) :
  tbl !! k = Some o →
  handover_total order_ids tbl
  = (if unsettled_in order_ids (k, o) then Order.total_price o else 0)
    + handover_total order_ids (delete k tbl).
Proof.
  intros Hk. unfold handover_total.
  rewrite (select_where_delete _ _ _ _ Hk), fmap_app, sum_list_Z_app.
  f_equal. destruct (unsettled_in order_ids (k, o)); cbn; lia.
Qed.

Lemma handover_total_single (order_id : Z) (tbl : gmap Z Order.t) (order : Order.t) :
  tbl !! order_id = Some order →
  Order.is_cash_turned_in order = false →
  handover_total [order_id] tbl = Order.total_price order.
Proof.
  intros Hk Hturned. rewrite (handover_total_delete _ _ _ _ Hk).
  unfold unsettled_in. simpl. rewrite Hturned, bool_decide_eq_true_2 by set_solver. simpl.
  unfold handover_total.
  rewrite (proj2 (select_where_nil _ (delete order_id tbl))); [cbn; lia|].
  intros k v Hkv. unfold unsettled_in. apply andb_false_intro1, bool_decide_eq_false_2.
  simpl. intros Hin%list_elem_of_singleton. subst k. by rewrite lookup_delete_eq in Hkv.
Qed.

Lemma select_unsettled_nonempty (order_ids : list Z) (tbl : gmap Z Order.t)
    (order_id : Z) (order : Order.t) :
  tbl !! order_id = Some order →
  order_id ∈ order_ids →
  Order.is_cash_turned_in order = false →
  select_where (unsettled_in order_ids) tbl ≠ [].
Proof.
  intros Hk Hin Hturned Hnil.
  pose proof (proj1 (select_where_nil _ _) Hnil _ _ Hk) as HP.
  unfold unsettled_in in HP. simpl in HP.
  by rewrite Hturned, bool_decide_eq_true_2 in HP.
Qed.

Lemma hand_over_turned_in (shift_id : Z) (o : Order.t) :
  Order.is_cash_turned_in (hand_over shift_id o) = true.
Proof. unfold hand_over. simpl. by destruct (truthy (Order.cash_shift_id o)). Qed.

Lemma hand_over_links (shift_id : Z) (o : Order.t) :
  Order.cash_shift_id (hand_over shift_id o)
  = if truthy (Order.cash_shift_id o) then Order.cash_shift_id o else Some shift_id.
Proof. unfold hand_over. simpl. by destruct (truthy (Order.cash_shift_id o)). Qed.

(** C1. A cashier with the open shift [shift_id] takes the money of one
    order from the employee who holds exactly its total and has not turned
    it in: [process_handover] returns that total, the balance of the
    employee becomes 0, the order is turned in, an order that had no shift
    is linked to the shift of the cashier, and exactly one transaction, of
    type handover and of that amount, is appended for the shift. *)
Theorem handover_of_one_order (s : Session) (shift_id employee_id order_id : Z)
    (shift : CashShift.t) (employee : Employee.t) (order : Order.t) :
  shifts s !! shift_id = Some shift →
  CashShift.is_closed shift = false →
  employees s !! employee_id = Some employee →
  orders s !! order_id = Some order →
  Order.is_cash_turned_in order = false →
  Employee.cash_balance employee = Order.total_price order →
  ∃ (s' : Session) (order' : Order.t) (tx : CashTransaction.t),
    process_handover shift_id employee_id [order_id] s
      = (s', Return (Order.total_price order)) ∧
    employees s' !! employee_id = Some (set_cash_balance 0 employee) ∧
    orders s' !! order_id = Some order' ∧
    Order.is_cash_turned_in order' = true ∧
    (Order.cash_shift_id order = None → Order.cash_shift_id order' = Some shift_id) ∧
    transactions s' = transactions s ++ [tx] ∧
    CashTransaction.shift_id tx = shift_id ∧
    CashTransaction.amount tx = Order.total_price order ∧
    CashTransaction.transaction_type tx = "handover".
Proof.
  intros Hshift Hopen Hemp Hord Hturned Hbal.
  assert (unsettled_in [order_id] (order_id, order) = true) as Hsel.
  { unfold unsettled_in. simpl. rewrite Hturned. by rewrite bool_decide_eq_true_2 by set_solver. }
  eexists _, (hand_over shift_id order), _. split.
  { rewrite (process_handover_success s _ _ _ shift employee); try done.
    - by rewrite (handover_total_single _ _ order).
    - apply (select_unsettled_nonempty _ _ order_id order); [done|set_solver|done]. }
  unfold after_handover. simpl.
  rewrite (handover_total_single _ _ order) by done.
  rewrite lookup_insert_eq, lookup_handed_over, Hord. simpl. rewrite Hsel.
  rewrite hand_over_turned_in, hand_over_links.
  repeat split; try done.
  - do 2 f_equal. lia.
  - by intros ->.
Qed.

Lemma handover_of_one_order_witness :
  ∃ (s' : Session) (order' : Order.t) (tx : CashTransaction.t),
    process_handover 1 3 [10] one_order_session = (s', Return 150) ∧
    employees s' !! 3 = Some (Employee.mk None "E" 0) ∧
    orders s' !! 10 = Some order' ∧
    Order.is_cash_turned_in order' = true ∧
    (Order.cash_shift_id one_order_order = None → Order.cash_shift_id order' = Some 1) ∧
    transactions s' = [] ++ [tx] ∧
    CashTransaction.shift_id tx = 1 ∧
    CashTransaction.amount tx = 150 ∧
    CashTransaction.transaction_type tx = "handover".
Proof.
  apply (handover_of_one_order one_order_session 1 3 10
           one_order_shift one_order_employee one_order_order);
    reflexivity.
Defined.

(** C6. A handover whose batch holds no order that is still to be turned in
    (every order named is already turned in, or is unknown) fails, and with
    the no-orders error once the shift of the cashier and the employee are
    found; and whenever a handover raises, whatever the error, the session
    is left as it was: no order is marked, no transaction is added and no
    balance is changed. *)
Theorem handover_failure_changes_nothing (s : Session) (shift_id employee_id : Z)
    (order_ids : list Z) :
  (∀ e : PyError,
     (process_handover shift_id employee_id order_ids s).2 = Raise e →
     (process_handover shift_id employee_id order_ids s).1 = s) ∧
  ((∀ k o, k ∈ order_ids → orders s !! k = Some o → Order.is_cash_turned_in o = true) →
   (∃ e : PyError, process_handover shift_id employee_id order_ids s = (s, Raise e)) ∧
   (∀ (shift : CashShift.t) (employee : Employee.t),
      shifts s !! shift_id = Some shift →
      CashShift.is_closed shift = false →
      employees s !! employee_id = Some employee →
      process_handover shift_id employee_id order_ids s = (s, Raise NoOrdersToHandOver))).
Proof.
  split; [intros e; apply process_handover_raise|].
  intros Hall.
  assert (select_where (unsettled_in order_ids) (orders s) = []) as Hnil.
  { apply select_where_nil. intros k o Hk. unfold unsettled_in. simpl.
    destruct (decide (k ∈ order_ids)) as [Hin|Hnin].
    - rewrite (Hall k o Hin Hk). apply andb_false_r.
    - by rewrite bool_decide_eq_false_2. }
  unfold process_handover, bind, gets, modify, ret, raise. simpl. split.
  - destruct (shifts s !! shift_id) as [shift|]; [|by eexists].
    destruct (CashShift.is_closed shift); [by eexists|].
    destruct (employees s !! employee_id) as [employee|]; [|by eexists].
    rewrite Hnil. by eexists.
  - intros shift employee Hshift Hopen Hemp. by rewrite Hshift, Hopen, Hemp, Hnil.
Qed.

Lemma handover_failure_changes_nothing_witness :
  process_handover 1 3 [10] settled_session = (settled_session, Raise NoOrdersToHandOver).
Proof.
  refine (proj2 (proj2 (handover_failure_changes_nothing settled_session 1 3 [10]) _)
            one_order_shift one_order_employee eq_refl eq_refl eq_refl).
  intros k o Hk%list_elem_of_singleton Ho. subst k.
  change (orders settled_session) with ({[10 := settled_order]} : gmap Z Order.t) in Ho.
  rewrite lookup_singleton_eq in Ho. by injection Ho as <-.
Defined.

(** C9. The handover selects on the turned-in flag alone.  Any order of the
    batch that is not turned in, whatever its payment method, is marked as
    turned in; its total is part of the amount returned, of the amount taken
    (down to zero at most) from the balance of the employee, and of the
    amount of the handover transaction. *)
Theorem handover_ignores_payment_method (s : Session) (shift_id employee_id : Z)
    (order_ids : list Z) (shift : CashShift.t) (employee : Employee.t)
    (order_id : Z) (order : Order.t) :
  shifts s !! shift_id = Some shift →
  CashShift.is_closed shift = false →
  employees s !! employee_id = Some employee →
  orders s !! order_id = Some order →
  order_id ∈ order_ids →
  Order.is_cash_turned_in order = false →
  let total := Order.total_price order + handover_total order_ids (delete order_id (orders s)) in
  ∃ (s' : Session) (order' : Order.t) (tx : CashTransaction.t),
    process_handover shift_id employee_id order_ids s = (s', Return total) ∧
    orders s' !! order_id = Some order' ∧
    Order.is_cash_turned_in order' = true ∧
    Order.payment_method order' = Order.payment_method order ∧
    employees s' !! employee_id
      = Some (set_cash_balance (Z.max 0 (Employee.cash_balance employee - total)) employee) ∧
    transactions s' = transactions s ++ [tx] ∧
    CashTransaction.transaction_type tx = "handover" ∧
    CashTransaction.amount tx = total.
Proof.
  intros Hshift Hopen Hemp Hord Hin Hturned total.
  assert (unsettled_in order_ids (order_id, order) = true) as Hsel.
  { unfold unsettled_in. simpl. by rewrite Hturned, bool_decide_eq_true_2. }
  assert (handover_total order_ids (orders s) = total) as Htotal.
  { rewrite (handover_total_delete _ _ _ _ Hord), Hsel. done. }
  eexists _, (hand_over shift_id order), _. split.
  { rewrite (process_handover_success s _ _ _ shift employee); try done.
    - by rewrite Htotal.
    - by apply (select_unsettled_nonempty _ _ order_id order). }
  unfold after_handover. simpl.
  rewrite Htotal, lookup_insert_eq, lookup_handed_over, Hord. simpl. rewrite Hsel.
  rewrite hand_over_turned_in.
  repeat split; try done.
  unfold hand_over. simpl. by destruct (truthy (Order.cash_shift_id order)).
Qed.

Lemma handover_ignores_payment_method_witness :
  ∃ (s' : Session) (order' : Order.t) (tx : CashTransaction.t),
    process_handover 1 3 [10; 11] card_session = (s', Return 230) ∧
    orders s' !! 11 = Some order' ∧
    Order.is_cash_turned_in order' = true ∧
    Order.payment_method order' = "card" ∧
    employees s' !! 3 = Some (Employee.mk None "E" 0) ∧
    transactions s' = [] ++ [tx] ∧
    CashTransaction.transaction_type tx = "handover" ∧
    CashTransaction.amount tx = 230.
Proof.
  apply (handover_ignores_payment_method card_session 1 3 [10; 11]
           one_order_shift one_order_employee 11 card_order);
    try reflexivity.
  set_solver.
Defined.

(** ** What each function does to the session *)

Lemma order_step_refl (o : Order.t) : order_step o o.
Proof. by repeat split. Qed.

Lemma order_step_trans (o1 o2 o3 : Order.t) :
  order_step o1 o2 → order_step o2 o3 → order_step o1 o3.
Proof.
  intros (Hp1 & Ht1 & Hl1) (Hp2 & Ht2 & Hl2). repeat split; [congruence..|].
  intros Hlinked. rewrite <- (Hl1 Hlinked). apply Hl2. by rewrite (Hl1 Hlinked).
Qed.

Lemma order_step_turned_in (b : bool) (o : Order.t) : order_step o (set_is_cash_turned_in b o).
Proof. by repeat split. Qed.

Lemma order_step_status (v : Z) (o : Order.t) : order_step o (set_status_id v o).
Proof. by repeat split. Qed.

Lemma order_step_hand_over (shift_id : Z) (o : Order.t) : order_step o (hand_over shift_id o).
Proof.
  unfold hand_over. simpl. destruct (truthy (Order.cash_shift_id o)) eqn:Hl; simpl;
    repeat split; try done; intros; congruence.
Qed.

(** Linking reads the shifts and changes nothing in the session.  An order
    that has a link comes back as it is; one that has none is linked to an
    open shift when there is one, and comes back as it is when every shift is
    closed. *)
Lemma link_order_to_shift_cases (order : Order.t) (employee_id : option Z) (s : Session) :
  truthy (Order.cash_shift_id order) = true ∧
    link_order_to_shift order employee_id s = (s, Return order)
  ∨
  truthy (Order.cash_shift_id order) = false ∧
    (∃ (k : Z) (shift : CashShift.t),
       shifts s !! k = Some shift ∧ CashShift.is_closed shift = false ∧
       link_order_to_shift order employee_id s
       = (s, Return (set_cash_shift_id (Some k) order)))
  ∨
  truthy (Order.cash_shift_id order) = false ∧
    (∀ k shift, shifts s !! k = Some shift → CashShift.is_closed shift = true) ∧
    link_order_to_shift order employee_id s = (s, Return order).
Proof.
  unfold link_order_to_shift.
  destruct (truthy (Order.cash_shift_id order)) eqn:Hl; [by left|]. right.
  assert (∀ found : option (Z * CashShift.t),
    head (take 1 (select_where (λ r, negb (CashShift.is_closed r.2)) (shifts s))) = found →
    (∃ k shift, shifts s !! k = Some shift ∧ CashShift.is_closed shift = false ∧
       found = Some (k, shift))
    ∨ (∀ k shift, shifts s !! k = Some shift → CashShift.is_closed shift = true) ∧
      found = None) as Hany.
  { intros found Hfound. rewrite head_take_1 in Hfound. destruct found as [[k sh]|].
    - left. apply head_select_where_Some in Hfound as [Hk Hopen%negb_true_iff].
      by exists k, sh.
    - right. split; [|done]. intros k sh Hk.
      apply negb_false_iff, (proj1 (head_select_where_None _ _) Hfound k sh Hk). }
  unfold get_open_shift, get_any_open_shift. unfold_M.
  destruct (if_truthy employee_id) as [e|]; simpl.
  - destruct (head (select_where _ (shifts s))) as [[k sh]|] eqn:Hown; simpl.
    + apply head_select_where_Some in Hown as [Hk [_ Hopen%negb_true_iff]%andb_prop].
      left. split; [done|]. by exists k, sh.
    + destruct (Hany _ eq_refl) as [(k & sh & Hk & Hopen & ->)|[Hclosed ->]]; simpl.
      * left. split; [done|]. by exists k, sh.
      * by right.
  - destruct (Hany _ eq_refl) as [(k & sh & Hk & Hopen & ->)|[Hclosed ->]]; simpl.
    + left. split; [done|]. by exists k, sh.
    + by right.
Qed.

Lemma link_order_to_shift_step (order : Order.t) (employee_id : option Z) (s : Session) :
  ∃ order' : Order.t,
    link_order_to_shift order employee_id s = (s, Return order') ∧ order_step order order'.
Proof.
  destruct (link_order_to_shift_cases order employee_id s)
    as [[_ ->]|[(Hl & k & sh & _ & _ & ->)|(_ & _ & ->)]].
  - exists order. split; [done|apply order_step_refl].
  - eexists. split; [done|]. repeat split; try done. by rewrite Hl.
  - exists order. split; [done|apply order_step_refl].
Qed.

Lemma register_employee_debt_step (order : Order.t) (employee_id : Z) (s : Session) :
  ∃ (s' : Session) (order' : Order.t),
    register_employee_debt order employee_id s = (s', Return order') ∧
    order_step order order' ∧ debt_step order s s'.
Proof.
  unfold register_employee_debt.
  destruct (negb _); [exists s, order; split; [done|]; split; [apply order_step_refl|by left]|].
  unfold_M. destruct (employees s !! employee_id) as [employee|] eqn:Hemp; simpl.
  - eexists _, _. split; [done|]. split; [apply order_step_turned_in|].
    right. by exists employee_id, employee.
  - exists s, order. split; [done|]. split; [apply order_step_refl|by left].
Qed.

Lemma complete_order_step (order : Order.t) (operator_id : Z) (s : Session) :
  ∃ (s' : Session) (order' : Order.t),
    complete_order order operator_id s = (s', Return order') ∧
    order_step order order' ∧
    (s' = s ∨ ∃ linked, order_step order linked ∧ debt_step linked s s').
Proof.
  unfold complete_order.
  destruct (link_order_to_shift_step order (Some operator_id) s) as (o1 & Hlink & Hstep1).
  unfold bind at 1. rewrite Hlink.
  destruct (String.eqb _ _); [|exists s, o1; split; [done|]; split; [done|by left]].
  destruct (if_truthy (Order.courier_id o1)) as [c|].
  { destruct (register_employee_debt_step o1 c s) as (s' & o2 & -> & Hstep2 & Hdebt).
    exists s', o2. split; [done|]. split; [by eapply order_step_trans|].
    right. by exists o1. }
  destruct (if_truthy (Order.accepted_by_waiter_id o1)) as [w|].
  { destruct (register_employee_debt_step o1 w s) as (s' & o2 & -> & Hstep2 & Hdebt).
    exists s', o2. split; [done|]. split; [by eapply order_step_trans|].
    right. by exists o1. }
  exists s, (set_is_cash_turned_in true o1). split; [done|].
  split; [|by left]. eapply order_step_trans; [done|apply order_step_turned_in].
Qed.

Lemma get_open_shift_None (employee_id : Z) (s : Session) :
  (get_open_shift employee_id s).2 = Return None ↔ ¬ has_open_shift employee_id s.
Proof.
  unfold get_open_shift, gets. simpl. split.
  - intros [= Hhead] (k & sh & Hk & He & Hopen).
    pose proof (proj1 (head_select_where_None _ _) Hhead k sh Hk) as HP. simpl in HP.
    rewrite He, Hopen, Z.eqb_refl in HP. done.
  - intros Hnone. f_equal. apply head_select_where_None. intros k sh Hk. simpl.
    destruct (Z.eqb_spec (CashShift.employee_id sh) employee_id) as [He|]; [|done].
    destruct (CashShift.is_closed sh) eqn:Hopen; [done|].
    destruct Hnone. by exists k, sh.
Qed.

Lemma open_new_shift_cases (now employee_id start_cash : Z) (s : Session) :
  has_open_shift employee_id s ∧
    open_new_shift now employee_id start_cash s = (s, Raise ShiftAlreadyOpen)
  ∨
  ¬ has_open_shift employee_id s ∧
    open_new_shift now employee_id start_cash s
    = (set_shifts (<[next_id (shifts s) := new_shift now employee_id start_cash]> (shifts s)) s,
       Return (next_id (shifts s), new_shift now employee_id start_cash)).
Proof.
  pose proof (get_open_shift_None employee_id s) as Hnone.
  unfold open_new_shift, bind.
  destruct (get_open_shift employee_id s) as [s0 r] eqn:Hget.
  assert (s0 = s) as -> by (unfold get_open_shift, gets in Hget; by simplify_eq).
  unfold get_open_shift, gets in Hget. injection Hget as Hr. subst r.
  destruct (head _) as [found|] eqn:Hhead.
  - left. split; [|done]. destruct found as [k sh].
    apply head_select_where_Some in Hhead as [Hk [He%Z.eqb_eq Hopen%negb_true_iff]%andb_prop].
    by exists k, sh.
  - right. split; [by apply Hnone|]. done.
Qed.

(** The statistics read the session and leave it as it is. *)
Lemma get_shift_statistics_pure (shift_id : Z) (s : Session) :
  ∃ stats, get_shift_statistics shift_id s = (s, Return stats).
Proof.
  unfold get_shift_statistics. cbv beta iota delta [bind gets ret].
  destruct (shifts s !! shift_id) as [shift|]; [|by eexists].
  destruct (sales_loop _) as [cash card].
  destruct (trans_loop _) as [[service_in service_out] handover_in]. by eexists.
Qed.

Lemma close_active_shift_cases (now shift_id end_cash_actual : Z) (s : Session) :
  (∃ e, close_active_shift now shift_id end_cash_actual s = (s, Raise e))
  ∨
  ∃ shift closed,
    shifts s !! shift_id = Some shift ∧
    CashShift.is_closed shift = false ∧
    CashShift.employee_id closed = CashShift.employee_id shift ∧
    CashShift.is_closed closed = true ∧
    close_active_shift now shift_id end_cash_actual s
    = (set_shifts (<[shift_id := closed]> (shifts s)) s, Return closed).
Proof.
  remember (close_active_shift now shift_id end_cash_actual s) as r eqn:Hr.
  unfold close_active_shift in Hr.
  cbv beta iota delta [bind gets modify ret raise] in Hr.
  destruct (shifts s !! shift_id) as [shift|] eqn:Hshift; [|by left; eexists].
  destruct (CashShift.is_closed shift) eqn:Hopen; [by left; eexists|].
  destruct (get_shift_statistics_pure shift_id s) as [stats Hstats].
  rewrite Hstats in Hr.
  destruct stats as [stats|]; [|by left; eexists].
  right. eexists shift, _. split_and!. 5: exact Hr. all: done.
Qed.

Lemma process_handover_cases (shift_id employee_id : Z) (order_ids : list Z) (s : Session) :
  (∃ e, process_handover shift_id employee_id order_ids s = (s, Raise e))
  ∨
  ∃ shift employee,
    shifts s !! shift_id = Some shift ∧
    CashShift.is_closed shift = false ∧
    employees s !! employee_id = Some employee ∧
    process_handover shift_id employee_id order_ids s
    = (after_handover shift_id employee_id order_ids employee s,
       Return (handover_total order_ids (orders s))).
Proof.
  destruct (shifts s !! shift_id) as [shift|] eqn:Hshift;
    [|left; exists CashierShiftMissingOrClosed; unfold process_handover; unfold_M;
      by rewrite Hshift].
  destruct (CashShift.is_closed shift) eqn:Hopen;
    [left; exists CashierShiftMissingOrClosed; unfold process_handover; unfold_M;
      by rewrite Hshift, Hopen|].
  destruct (employees s !! employee_id) as [employee|] eqn:Hemp;
    [|left; exists EmployeeNotFound; unfold process_handover; unfold_M;
      by rewrite Hshift, Hopen, Hemp].
  destruct (select_where (unsettled_in order_ids) (orders s)) as [|r l] eqn:Hsel.
  - left. exists NoOrdersToHandOver. unfold process_handover. unfold_M.
    by rewrite Hshift, Hopen, Hemp, Hsel.
  - right. exists shift, employee. repeat split; try done.
    apply (process_handover_success s _ _ _ shift employee); try done. by rewrite Hsel.
Qed.

Lemma change_order_status_admin_cases (user_id order_id new_status_id : Z) (s : Session) :
  (change_order_status_admin user_id order_id new_status_id s).1 = s
  ∨
  ∃ (order order' : Order.t) (s1 : Session) (h : list OrderStatusHistory.t),
    orders s !! order_id = Some order ∧
    order_step order order' ∧
    (s1 = s ∨ ∃ linked, order_step order linked ∧ debt_step linked s s1) ∧
    (change_order_status_admin user_id order_id new_status_id s).1
    = set_orders (<[order_id := order']> (orders s1)) (set_history h s1).
Proof.
  remember (change_order_status_admin user_id order_id new_status_id s) as r eqn:Hr.
  unfold change_order_status_admin in Hr.
  cbv beta iota delta [bind gets modify ret raise] in Hr.
  destruct (head _) as [[op_id op]|]; [|by left; subst r].
  destruct (orders s !! order_id) as [order|] eqn:Hord; [|by left; subst r].
  destruct (Order.status_id order =? new_status_id); [by left; subst r|].
  destruct (statuses s !! Order.status_id order) as [status|]; [|by left; subst r].
  destruct (_ || _); [by left; subst r|].
  destruct (statuses s !! new_status_id) as [new_status|]; [|by left; subst r].
  right. destruct (OrderStatus.is_completed_status new_status).
  - destruct (complete_order_step order (op_id, op).1 s) as (s1 & o1 & Hc & Hstep & Hs1).
    rewrite Hc in Hr. subst r. cbn [fst].
    eexists order, (set_status_id new_status_id o1), s1, _. split_and!; [done| |done|done].
    eapply order_step_trans; [done|apply order_step_status].
  - subst r. cbn [fst].
    eexists order, (set_status_id new_status_id order), s, _.
    split_and!; [done|apply order_step_status|by left|done].
Qed.

(** ** Every call is a ledger step *)

Lemma set_history_same (s : Session) : set_history (history s) s = s.
Proof. by destruct s. Qed.

Lemma with_order_step (order_id : Z) (f : Order.t → M Order.t) (s : Session) :
  (∀ order, orders s !! order_id = Some order →
     ∃ s1 order', f order s = (s1, Return order') ∧ order_step order order' ∧
       (s1 = s ∨ ∃ linked, order_step order linked ∧ debt_step linked s s1)) →
  ledger_step s (with_order order_id f s).1.
Proof.
  intros Hf. unfold with_order. unfold bind at 1. unfold gets at 1.
  destruct (orders s !! order_id) as [order|] eqn:Hord; [|apply step_none].
  destruct (Hf order eq_refl) as (s1 & o' & Heq & Hstep & Hs1).
  unfold bind, modify. rewrite Heq. simpl.
  rewrite <- (set_history_same s1) at 2.
  by apply (step_order s order_id order o' s1).
Qed.

Lemma run_op_step (op : Op) (s : Session) : ledger_step s (run_op op s).1.
Proof.
  destruct op as [now e c|now sh c|o e|o e|sh e ids|sh a t c|u o st]; simpl.
  - unfold forget, bind.
    destruct (open_new_shift_cases now e c s) as [[_ ->]|[Hnone ->]]; simpl.
    + apply step_none.
    + by apply step_open.
  - unfold forget, bind.
    destruct (close_active_shift_cases now sh c s)
      as [[err ->]|(shift & closed & Hk & Hopen & He & Hcl & ->)]; simpl.
    + apply step_none.
    + by apply (step_close s sh shift closed).
  - apply with_order_step. intros order _.
    destruct (link_order_to_shift_step order e s) as (o' & Heq & Hstep).
    exists s, o'. split_and!; [done|done|by left].
  - apply with_order_step. intros order _.
    destruct (register_employee_debt_step order e s) as (s1 & o' & Heq & Hstep & Hdebt).
    exists s1, o'. split_and!; [done|done|]. right. exists order. split; [apply order_step_refl|done].
  - unfold forget, bind.
    destruct (process_handover_cases sh e ids s)
      as [[err ->]|(shift & employee & Hk & Hopen & Hemp & ->)]; simpl.
    + apply step_none.
    + by apply (step_handover s sh e ids shift employee).
  - unfold add_shift_transaction. unfold_M. apply step_transaction.
  - unfold forget, bind.
    destruct (change_order_status_admin_cases u o st s)
      as [Hsame|(order & order' & s1 & h & Hord & Hstep & Hs1 & Heq)].
    + destruct (change_order_status_admin u o st s) as [s' [a|err]]; simpl in *; subst s';
        apply step_none.
    + destruct (change_order_status_admin u o st s) as [s' [a|err]]; simpl in *; subst s';
        by apply (step_order s o order order' s1 h).
Qed.

(** An invariant of the ledger steps holds after every sequence of calls. *)
Lemma run_ops_invariant (I : Session → Prop) :
  (∀ s s', I s → ledger_step s s' → I s') →
  ∀ ops s, I s → I (run_ops ops s).
Proof.
  intros Hstep ops. unfold run_ops.
  induction ops as [|op ops IH]; intros s HI; simpl; [done|].
  apply IH. eapply Hstep; [done|apply run_op_step].
Qed.

(** ** Invariants of the ledger steps *)

Lemma orders_step_refl (t : gmap Z Order.t) : orders_step t t.
Proof.
  intros k. destruct (t !! k); constructor. apply order_step_refl.
Qed.

Lemma orders_step_trans (t1 t2 t3 : gmap Z Order.t) :
  orders_step t1 t2 → orders_step t2 t3 → orders_step t1 t3.
Proof.
  intros H12 H23 k. specialize (H12 k). specialize (H23 k).
  destruct H12 as [o1 o2 Ho|]; inversion H23; subst; constructor.
  by eapply order_step_trans.
Qed.

Lemma orders_step_insert (t : gmap Z Order.t) (k : Z) (o o' : Order.t) :
  t !! k = Some o → order_step o o' → orders_step t (<[k := o']> t).
Proof.
  intros Hk Hstep j. destruct (decide (k = j)) as [<-|Hne].
  - rewrite lookup_insert_eq, Hk. by constructor.
  - rewrite lookup_insert_ne by done. apply orders_step_refl.
Qed.

Lemma orders_step_handed_over (shift_id : Z) (order_ids : list Z) (t : gmap Z Order.t) :
  orders_step t (handed_over shift_id order_ids t).
Proof.
  intros k. rewrite lookup_handed_over. destruct (t !! k) as [o|]; constructor.
  destruct (unsettled_in order_ids (k, o)); [apply order_step_hand_over|apply order_step_refl].
Qed.

Lemma debt_step_tables (order : Order.t) (s s' : Session) :
  debt_step order s s' →
  shifts s' = shifts s ∧ orders s' = orders s ∧ transactions s' = transactions s.
Proof. by intros [->|(e & emp & _ & ->)]. Qed.

Lemma ledger_step_orders (s s' : Session) :
  ledger_step s s' → orders_step (orders s) (orders s').
Proof.
  intros Hstep. destruct Hstep as [|? ? ? ?|? ? ? ? ? ? ?|k o o' s1 h Hk Ho Hs1|? ? ? ? ? ? ? ?|?];
    simpl; try apply orders_step_refl.
  - assert (orders s1 = orders s) as ->.
    { destruct Hs1 as [->|(linked & _ & Hdebt)]; [done|].
      by apply debt_step_tables in Hdebt as (_ & ? & _). }
    by apply (orders_step_insert _ _ o).
  - apply orders_step_handed_over.
Qed.

Lemma ledger_step_shifts (s s' : Session) :
  ledger_step s s' →
  shifts s' = shifts s
  ∨ (∃ now e c, ¬ has_open_shift e s ∧
       shifts s' = <[next_id (shifts s) := new_shift now e c]> (shifts s))
  ∨ (∃ k shift closed, shifts s !! k = Some shift ∧ CashShift.is_closed closed = true ∧
       shifts s' = <[k := closed]> (shifts s)).
Proof.
  intros Hstep. destruct Hstep as [|now e c Hnone|k sh cl Hk ? ? Hcl|k o o' s1 h Hk Ho Hs1|? ? ? ? ? ? ? ?|?];
    simpl; try by left.
  - right. left. by exists now, e, c.
  - right. right. by exists k, sh, cl.
  - left. destruct Hs1 as [->|(linked & _ & Hdebt)]; [done|].
    by apply debt_step_tables in Hdebt as (? & _ & _).
Qed.




Lemma ledger_step_one_open_shift (s s' : Session) :
  one_open_shift s → ledger_step s s' → one_open_shift s'.
Proof.
  intros Hone Hstep.
  destruct (ledger_step_shifts s s' Hstep)
    as [Heq|[(now & e & c & Hnone & Heq)|(k & sh & cl & Hk & Hcl & Heq)]];
    unfold one_open_shift; rewrite Heq; clear Heq.
  - apply Hone.
  - intros k1 k2 sh1 sh2 H1 H2 Ho1 Ho2 He.
    destruct (decide (next_id (shifts s) = k1)) as [<-|Hn1];
      destruct (decide (next_id (shifts s) = k2)) as [<-|Hn2]; [done|..].
    + rewrite lookup_insert_eq in H1. rewrite lookup_insert_ne in H2 by done.
      injection H1 as <-. simpl in He. destruct Hnone. by exists k2, sh2.
    + rewrite lookup_insert_eq in H2. rewrite lookup_insert_ne in H1 by done.
      injection H2 as <-. simpl in He. destruct Hnone. by exists k1, sh1.
    + rewrite lookup_insert_ne in H1, H2 by done. by apply (Hone k1 k2 sh1 sh2).
  - intros k1 k2 sh1 sh2 H1 H2 Ho1 Ho2 He.
    destruct (decide (k = k1)) as [<-|Hn1].
    { rewrite lookup_insert_eq in H1. injection H1 as <-. congruence. }
    destruct (decide (k = k2)) as [<-|Hn2].
    { rewrite lookup_insert_eq in H2. injection H2 as <-. congruence. }
    rewrite lookup_insert_ne in H1, H2 by done. by apply (Hone k1 k2 sh1 sh2).
Qed.



(** C5. [open_new_shift] raises the already-open error whenever the
    employee has a shift that is not closed; otherwise it adds one new shift
    under a fresh key, with [is_closed = False], and returns it.  Hence, along
    every sequence of calls, each employee has at most one shift that is not
    closed. *)
Theorem open_shift_exclusive :
  (∀ (now employee_id start_cash : Z) (s : Session),
     has_open_shift employee_id s →
     open_new_shift now employee_id start_cash s = (s, Raise ShiftAlreadyOpen)) ∧
  (∀ (now employee_id start_cash : Z) (s : Session),
     ¬ has_open_shift employee_id s →
     ∃ (k : Z) (shift : CashShift.t),
       open_new_shift now employee_id start_cash s
       = (set_shifts (<[k := shift]> (shifts s)) s, Return (k, shift)) ∧
       shifts s !! k = None ∧
       CashShift.is_closed shift = false ∧
       CashShift.employee_id shift = employee_id) ∧
  (∀ (ops : list Op) (s : Session),
     one_open_shift s → one_open_shift (run_ops ops s)).
Proof.
  split_and!.
  - intros now e c s Hopen.
    by destruct (open_new_shift_cases now e c s) as [[_ ->]|[Hnone _]].
  - intros now e c s Hnone.
    destruct (open_new_shift_cases now e c s) as [[Hopen _]|[_ ->]]; [done|].
    eexists _, _. split_and!; [done|apply next_id_fresh|done|done].
  - intros ops s Hone. apply (run_ops_invariant one_open_shift); [|done].
    intros s1 s2. apply ledger_step_one_open_shift.
Qed.

Lemma open_shift_exclusive_witness :
  open_new_shift 5 7 100 one_order_session = (one_order_session, Raise ShiftAlreadyOpen) ∧
  one_open_shift
    (run_ops [OpOpenShift 5 7 100; OpOpenShift 6 8 0; OpCloseShift 9 1 480; OpOpenShift 10 7 20]
       one_order_session).
Proof.
  split.
  - apply (proj1 open_shift_exclusive). exists 1, one_order_shift. by split_and!.
  - apply (proj2 (proj2 open_shift_exclusive)).
    unfold one_open_shift, one_order_session. cbn [shifts].
    intros k1 k2 sh1 sh2 [<- _]%lookup_singleton_Some [<- _]%lookup_singleton_Some. done.
Defined.

(** C7. The link of an order to a shift is set once.  [link_order_to_shift]
    returns an order that has a link unchanged and leaves the session alone;
    the handover loop keeps the link of such an order; calling
    [link_order_to_shift] a second time (for any acting employee) yields the
    order the first call yielded; and through every sequence of calls an
    order that has a link keeps it, so it is attributed to one shift only.
    Shift keys are issued by the store and are never 0, which no sequence of
    calls changes. *)
Theorem link_is_set_once :
  (∀ (order : Order.t) (employee_id : option Z) (s : Session),
     truthy (Order.cash_shift_id order) = true →
     link_order_to_shift order employee_id s = (s, Return order)) ∧
  (∀ (shift_id : Z) (order : Order.t),
     truthy (Order.cash_shift_id order) = true →
     Order.cash_shift_id (hand_over shift_id order) = Order.cash_shift_id order) ∧
  (∀ (order : Order.t) (employee_id employee_id' : option Z) (s : Session),
     shifts s !! 0 = None →
     ∃ order' : Order.t,
       link_order_to_shift order employee_id s = (s, Return order') ∧
       link_order_to_shift order' employee_id' s = (s, Return order')) ∧
  (∀ (ops : list Op) (s : Session) (k : Z) (order : Order.t),
     orders s !! k = Some order →
     truthy (Order.cash_shift_id order) = true →
     ∃ order' : Order.t,
       orders (run_ops ops s) !! k = Some order' ∧
       Order.cash_shift_id order' = Order.cash_shift_id order) ∧
  (∀ (ops : list Op) (s : Session),
     shifts s !! 0 = None → shifts (run_ops ops s) !! 0 = None).
Proof.
  assert (∀ (order : Order.t) (employee_id : option Z) (s : Session),
     truthy (Order.cash_shift_id order) = true →
     link_order_to_shift order employee_id s = (s, Return order)) as Hnoop.
  { intros order e s Hl. unfold link_order_to_shift. by rewrite Hl. }
  split_and!; [done|..].
  - intros sh order Hl. by apply order_step_hand_over.
  - intros order e e' s Hzero.
    destruct (link_order_to_shift_cases order e s)
      as [[Hl ->]|[(Hl & k & sh & Hk & _ & ->)|(Hl & Hclosed & ->)]].
    + exists order. split; [done|]. by apply Hnoop.
    + eexists. split; [done|]. apply Hnoop. simpl.
      apply negb_true_iff, Z.eqb_neq. intros ->. congruence.
    + exists order. split; [done|].
      destruct (link_order_to_shift_cases order e' s)
        as [[_ ->]|[(_ & k & sh & Hk & Hopen & _)|(_ & _ & ->)]]; [done| |done].
      rewrite (Hclosed k sh Hk) in Hopen. done.
  - intros ops s k order Hk Hl.
    assert (orders_step (orders s) (orders (run_ops ops s))) as Hstep.
    { apply (run_ops_invariant (λ s', orders_step (orders s) (orders s')));
        [|apply orders_step_refl].
      intros s1 s2 H1 H12. eapply orders_step_trans; [done|by apply ledger_step_orders]. }
    specialize (Hstep k). rewrite Hk in Hstep.
    inversion Hstep as [? order' Hord Heq1 Heq2|]; subst.
    exists order'. split; [done|]. by apply Hord.
  - intros ops s Hzero. apply (run_ops_invariant (λ s, shifts s !! 0 = None)); [|done].
    intros s1 s2 H1 H12.
    destruct (ledger_step_shifts s1 s2 H12)
      as [->|[(now & e & c & _ & ->)|(k & sh & cl & Hk & _ & ->)]]; [done|..].
    + rewrite lookup_insert_ne; [done|]. pose proof (next_id_bound (shifts s1)). lia.
    + rewrite lookup_insert_ne; [done|]. intros ->. congruence.
Qed.

Lemma link_is_set_once_witness :
  link_order_to_shift linked_order (Some 8) two_shift_session
    = (two_shift_session, Return linked_order) ∧
  ∃ order' : Order.t,
    orders (run_ops [OpLinkOrder 10 (Some 8); OpHandover 2 3 [10]; OpChangeStatus 1 10 2]
              two_shift_session) !! 10 = Some order' ∧
    Order.cash_shift_id order' = Some 1.
Proof.
  split.
  - apply (proj1 link_is_set_once). reflexivity.
  - apply (proj1 (proj2 (proj2 (proj2 link_is_set_once))) _ two_shift_session 10 linked_order);
      reflexivity.
Defined.

(** ** The statistics of a shift *)

Lemma key_total_cons (k : string) (r : string * Z) (rows : list (string * Z)) :
  key_total k (r :: rows) = (if String.eqb r.1 k then r.2 else 0) + key_total k rows.
Proof. reflexivity. Qed.

#[local] Instance key_total_perm (k : string) : Proper ((≡ₚ) ==> (=)) (key_total k).
Proof. intros l1 l2 Hperm. unfold key_total. by rewrite Hperm. Qed.

Lemma key_total_absent (k : string) (rows : list (string * Z)) :
  (∀ r, r ∈ rows → r.1 ≠ k) → key_total k rows = 0.
Proof.
  induction rows as [|r rows IH]; intros Hall; [done|].
  rewrite key_total_cons, IH.
  - destruct (String.eqb_spec r.1 k) as [He|]; [|done].
    destruct (Hall r); [apply list_elem_of_here|done].
  - intros r' Hin. apply Hall. by apply list_elem_of_further.
Qed.

(** A grouped table holds each key once, with the sum of its group. *)
Lemma key_total_map_to_list (k : string) (g : gmap string Z) :
  key_total k (map_to_list g) = default 0 (g !! k).
Proof.
  destruct (g !! k) as [v|] eqn:Hk; simpl.
  - rewrite <- (map_to_list_delete g k v Hk), key_total_cons. simpl.
    rewrite String.eqb_refl, key_total_absent; [lia|].
    intros [k' v'] Hin%elem_of_map_to_list Heq. simpl in Heq. subst k'.
    by rewrite lookup_delete_eq in Hin.
  - apply key_total_absent. intros [k' v'] Hin%elem_of_map_to_list Heq.
    simpl in Heq. subst k'. congruence.
Qed.

Lemma group_sum_from (rows : list (string * Z)) (g : gmap string Z) (k : string) :
  default 0 (fold_left (λ (g : gmap string Z) (r : string * Z),
                 <[r.1 := default 0 (g !! r.1) + r.2]> g) rows g !! k)
  = default 0 (g !! k) + key_total k rows.
Proof.
  revert g. induction rows as [|r rows IH]; intros g.
  - cbn. lia.
  - cbn [fold_left]. rewrite IH, key_total_cons.
    destruct (String.eqb_spec r.1 k) as [<-|Hne].
    + rewrite lookup_insert_eq. simpl. lia.
    + rewrite lookup_insert_ne by done. lia.
Qed.

Lemma key_total_group_sum (k : string) (rows : list (string * Z)) :
  key_total k (map_to_list (group_sum rows)) = key_total k rows.
Proof.
  rewrite key_total_map_to_list. unfold group_sum.
  rewrite group_sum_from, lookup_empty. simpl. lia.
Qed.

Lemma trans_loop_from (rows : list (string * Z)) (a b c : Z) :
  fold_left (λ (acc : Z * Z * Z) (row : string * Z),
      let '(service_in, service_out, handover_in) := acc in
      let amount_decimal := or_zero (Some row.2) in
      if String.eqb row.1 "in" then (service_in + amount_decimal, service_out, handover_in)
      else if String.eqb row.1 "out" then (service_in, service_out + amount_decimal, handover_in)
      else if String.eqb row.1 "handover" then (service_in, service_out, handover_in + amount_decimal)
      else acc)
    rows (a, b, c)
  = (a + key_total "in" rows, b + key_total "out" rows, c + key_total "handover" rows).
Proof.
  revert a b c. induction rows as [|[t v] rows IH]; intros a b c.
  - cbn. rewrite !pair_equal_spec; split_and!; lia.
  - cbn [fold_left]. rewrite !key_total_cons. cbn [fst snd]. rewrite or_zero_Some.
    destruct (String.eqb_spec t "in") as [->|Hin].
    { rewrite IH. simpl. rewrite !pair_equal_spec; split_and!; lia. }
    destruct (String.eqb_spec t "out") as [->|Hout].
    { rewrite IH. simpl. rewrite !pair_equal_spec; split_and!; lia. }
    destruct (String.eqb_spec t "handover") as [->|Hh].
    { rewrite IH. simpl. rewrite !pair_equal_spec; split_and!; lia. }
    rewrite IH. rewrite !pair_equal_spec; split_and!; lia.
Qed.

Lemma trans_loop_totals (rows : list (string * Z)) :
  trans_loop rows = (key_total "in" rows, key_total "out" rows, key_total "handover" rows).
Proof. unfold trans_loop. rewrite trans_loop_from. rewrite !pair_equal_spec; split_and!; lia. Qed.

Lemma key_total_transactions (shift_id : Z) (kind : string) (s : Session) :
  key_total kind
    ((λ t, (CashTransaction.transaction_type t, CashTransaction.amount t)) <$>
       List.filter (λ t, CashTransaction.shift_id t =? shift_id) (transactions s))
  = transactions_total shift_id kind s.
Proof.
  unfold transactions_total. induction (transactions s) as [|t l IH]; [done|].
  cbn [List.filter]. destruct (CashTransaction.shift_id t =? shift_id); cbn [andb]; [|done].
  rewrite fmap_cons, key_total_cons, IH. cbn [fst snd].
  destruct (String.eqb _ kind); [by rewrite fmap_cons, sum_list_Z_cons|lia].
Qed.

Lemma trans_loop_trans_query (shift_id : Z) (s : Session) :
  trans_loop (trans_query shift_id s)
  = (transactions_total shift_id "in" s, transactions_total shift_id "out" s,
     transactions_total shift_id "handover" s).
Proof.
  rewrite trans_loop_totals. unfold trans_query.
  by rewrite !key_total_group_sum, !key_total_transactions.
Qed.

Lemma theoretical_cash_of_shift (s : Session) (shift_id : Z) (shift : CashShift.t) :
  shifts s !! shift_id = Some shift →
  ∃ stats : ShiftStatistics,
    get_shift_statistics shift_id s = (s, Return (Some stats)) ∧
    stat_theoretical_cash stats
    = default 0 (CashShift.start_cash shift) + collected_cash_orders shift_id s
      + transactions_total shift_id "in" s - transactions_total shift_id "out" s.
Proof.
  intros Hshift. unfold get_shift_statistics.
  cbv beta iota delta [bind gets ret]. rewrite Hshift. cbv beta iota.
  destruct (sales_loop _) as [cash card]. cbv beta iota.
  rewrite trans_loop_trans_query. cbv beta iota.
  eexists. split; [done|]. simpl.
  unfold query_collected_cash. by rewrite or_zero_sql_sum.
Qed.

Lemma transactions_total_app (shift_id : Z) (kind : string) (s : Session)
    (tx : CashTransaction.t) :
  CashTransaction.transaction_type tx ≠ kind →
  transactions_total shift_id kind (set_transactions (transactions s ++ [tx]) s)
  = transactions_total shift_id kind s.
Proof.
  intros Hne. unfold transactions_total. simpl.
  rewrite List.filter_app. simpl.
  destruct (String.eqb_spec (CashTransaction.transaction_type tx) kind) as [|_]; [done|].
  by rewrite andb_false_r, app_nil_r.
Qed.

(** C2. For every shift that exists, the statistics give as theoretical
    cash the start cash (an absent start cash counts as 0), plus the totals
    of the orders linked to the shift that are paid in cash and turned in,
    plus the amounts of the transactions of type in, minus those of type
    out.  Transactions of type handover do not enter the sum: adding one
    leaves the theoretical cash as it is.  With a start cash of 500, one
    turned-in cash order of 200 and one withdrawal of 50 the theoretical cash
    is 650. *)
Theorem theoretical_cash_formula :
  (∀ (s : Session) (shift_id : Z) (shift : CashShift.t),
     shifts s !! shift_id = Some shift →
     ∃ stats : ShiftStatistics,
       get_shift_statistics shift_id s = (s, Return (Some stats)) ∧
       stat_theoretical_cash stats
       = default 0 (CashShift.start_cash shift) + collected_cash_orders shift_id s
         + transactions_total shift_id "in" s - transactions_total shift_id "out" s) ∧
  (∀ (s : Session) (shift_id : Z) (shift : CashShift.t) (tx : CashTransaction.t),
     shifts s !! shift_id = Some shift →
     CashTransaction.transaction_type tx = "handover" →
     let s' := set_transactions (transactions s ++ [tx]) s in
     ∃ stats stats' : ShiftStatistics,
       get_shift_statistics shift_id s = (s, Return (Some stats)) ∧
       get_shift_statistics shift_id s' = (s', Return (Some stats')) ∧
       stat_theoretical_cash stats' = stat_theoretical_cash stats) ∧
  (∃ stats : ShiftStatistics,
     get_shift_statistics 1 statistics_session = (statistics_session, Return (Some stats)) ∧
     stat_theoretical_cash stats = 650).
Proof.
  split_and!; [apply theoretical_cash_of_shift| |].
  2:{ destruct (theoretical_cash_of_shift statistics_session 1 _ eq_refl) as (st & Hst & Hcash).
      exists st. split; [done|]. rewrite Hcash. reflexivity. }
  intros s shift_id shift tx Hshift Htype s'.
  destruct (theoretical_cash_of_shift s shift_id shift Hshift) as (st & Hst & Hcash).
  destruct (theoretical_cash_of_shift s' shift_id shift Hshift) as (st' & Hst' & Hcash').
  exists st, st'. split_and!; [done|done|].
  rewrite Hcash, Hcash'. unfold s'.
  rewrite !transactions_total_app by (by rewrite Htype). done.
Qed.

Lemma theoretical_cash_formula_witness :
  ∃ stats : ShiftStatistics,
    get_shift_statistics 1 statistics_session = (statistics_session, Return (Some stats)) ∧
    stat_theoretical_cash stats
    = 500 + collected_cash_orders 1 statistics_session
      + transactions_total 1 "in" statistics_session
      - transactions_total 1 "out" statistics_session.
Proof.
  apply (proj1 theoretical_cash_formula statistics_session 1
           (CashShift.mk 7 0 (Some 500) false None None 0 0 0 0)).
  reflexivity.
Defined.

(** C8, as the code has it.  Asked for a shift that does not exist,
    [get_shift_statistics] does not fail: it returns [None], computes no
    report and leaves the session as it is.  It returns [None] for no shift
    that exists. *)
Theorem statistics_of_missing_shift (s : Session) (shift_id : Z) :
  (shifts s !! shift_id = None → get_shift_statistics shift_id s = (s, Return None)) ∧
  (get_shift_statistics shift_id s = (s, Return None) → shifts s !! shift_id = None).
Proof.
  split.
  - intros Hnone. unfold get_shift_statistics. unfold_M. by rewrite Hnone.
  - intros Hstat. destruct (shifts s !! shift_id) as [shift|] eqn:Hshift; [|done].
    destruct (theoretical_cash_of_shift s shift_id shift Hshift) as (st & Hst & _).
    congruence.
Qed.

Lemma statistics_of_missing_shift_witness :
  get_shift_statistics 2 statistics_session = (statistics_session, Return None).
Proof.
  apply (proj1 (statistics_of_missing_shift statistics_session 2)). reflexivity.
Defined.

(** C8 as the specification words it does not hold: no shift has the key 2, and the call
    returns normally (with [None]) instead of raising an error. *)
Lemma statistics_of_missing_shift_returns :
  shifts statistics_session !! 2 = None ∧
  ¬ ∃ e, (get_shift_statistics 2 statistics_session).2 = Raise e.
Proof.
  split; [reflexivity|]. intros [e He]. discriminate He.
Qed.

(** C4, as the code has it.  [add_shift_transaction] checks nothing: for
    every amount, of any sign, and every shift key, be the shift open, closed
    or unknown, it returns normally after appending exactly one transaction
    with the values it was given, and it changes nothing else in the
    session. *)
Theorem add_shift_transaction_appends (s : Session) (shift_id amount : Z)
    (t_type comment : string) :
  add_shift_transaction shift_id amount t_type comment s
  = (mkSession (shifts s)
       (transactions s ++ [CashTransaction.mk shift_id amount t_type comment])
       (orders s) (employees s) (statuses s) (history s),
     Return tt).
Proof. reflexivity. Qed.

(** C4 as the specification words it does not hold: a withdrawal of -5 on the closed shift 1
    raises neither an invalid-amount nor a shift-closed error; the entry is
    appended. *)
Lemma add_shift_transaction_accepts_invalid :
  (∃ shift, shifts closed_session !! 1 = Some shift ∧ CashShift.is_closed shift = true) ∧
  -5 ≤ 0 ∧
  (¬ ∃ e, (add_shift_transaction 1 (-5) "out" "oops" closed_session).2 = Raise e) ∧
  transactions (add_shift_transaction 1 (-5) "out" "oops" closed_session).1
  = [CashTransaction.mk 1 (-5) "out" "oops"].
Proof.
  split_and!; [by eexists|lia| |reflexivity].
  intros [e He]. discriminate He.
Qed.

(** ** The completion of an order *)






(** * Further properties of the ledger *)

(** ** Closing a shift *)

Lemma close_active_shift_success (now shift_id end_cash_actual : Z) (s : Session)
    (shift : CashShift.t) :
  shifts s !! shift_id = Some shift →
  CashShift.is_closed shift = false →
  ∃ stats : ShiftStatistics,
    get_shift_statistics shift_id s = (s, Return (Some stats)) ∧
    close_active_shift now shift_id end_cash_actual s
    = (set_shifts (<[shift_id := closed_shift now end_cash_actual stats shift]> (shifts s)) s,
       Return (closed_shift now end_cash_actual stats shift)).
Proof.
  intros Hshift Hopen.
  destruct (theoretical_cash_of_shift s shift_id shift Hshift) as (stats & Hstats & _).
  exists stats. split; [done|].
  unfold close_active_shift. cbv beta iota delta [bind gets modify ret raise].
  rewrite Hshift. cbv beta iota. rewrite Hopen, Hstats. reflexivity.
Qed.

Lemma close_active_shift_raises (now shift_id end_cash_actual : Z) (s : Session) :
  shifts s !! shift_id = None
  ∨ (∃ shift, shifts s !! shift_id = Some shift ∧ CashShift.is_closed shift = true) →
  close_active_shift now shift_id end_cash_actual s = (s, Raise ShiftMissingOrAlreadyClosed).
Proof.
  intros [Hnone|(shift & Hshift & Hclosed)];
    unfold close_active_shift; cbv beta iota delta [bind gets modify ret raise].
  - by rewrite Hnone.
  - rewrite Hshift. cbv beta iota. by rewrite Hclosed.
Qed.

(** X1. [close_active_shift] raises its error, and leaves the session as it
    is, when no shift has the key or when the shift is already closed. *)
Theorem close_active_shift_rejects (now shift_id end_cash_actual : Z) (s : Session) :
  shifts s !! shift_id = None
  ∨ (∃ shift, shifts s !! shift_id = Some shift ∧ CashShift.is_closed shift = true) →
  close_active_shift now shift_id end_cash_actual s = (s, Raise ShiftMissingOrAlreadyClosed).
Proof. apply close_active_shift_raises. Qed.

Lemma close_active_shift_rejects_witness :
  close_active_shift 12 1 500 closed_session
  = (closed_session, Raise ShiftMissingOrAlreadyClosed).
Proof.
  apply close_active_shift_rejects. right. eexists. split; reflexivity.
Defined.

(** X2. Closing an open shift returns the shift marked closed, stamped with
    the closing time and the counted cash, and carrying the sales and service
    totals of the report computed at that moment; owner, start time and start
    cash are kept, and nothing but that one shift row changes. *)
Theorem close_active_shift_freezes (now shift_id end_cash_actual : Z) (s : Session)
    (shift : CashShift.t) :
  shifts s !! shift_id = Some shift →
  CashShift.is_closed shift = false →
  ∃ (stats : ShiftStatistics) (closed : CashShift.t),
    get_shift_statistics shift_id s = (s, Return (Some stats)) ∧
    close_active_shift now shift_id end_cash_actual s
    = (mkSession (<[shift_id := closed]> (shifts s)) (transactions s) (orders s)
         (employees s) (statuses s) (history s),
       Return closed) ∧
    CashShift.is_closed closed = true ∧
    CashShift.end_time closed = Some now ∧
    CashShift.end_cash_actual closed = Some end_cash_actual ∧
    CashShift.total_sales_cash closed = stat_total_sales_cash stats ∧
    CashShift.total_sales_card closed = stat_total_sales_card stats ∧
    CashShift.service_in closed = stat_service_in stats ∧
    CashShift.service_out closed = stat_service_out stats ∧
    CashShift.employee_id closed = CashShift.employee_id shift ∧
    CashShift.start_time closed = CashShift.start_time shift ∧
    CashShift.start_cash closed = CashShift.start_cash shift.
Proof.
  intros Hshift Hopen.
  destruct (close_active_shift_success now shift_id end_cash_actual s shift Hshift Hopen)
    as (stats & Hstats & Hclose).
  exists stats, (closed_shift now end_cash_actual stats shift). by split_and!.
Qed.

Lemma close_active_shift_freezes_witness :
  ∃ (stats : ShiftStatistics) (closed : CashShift.t),
    get_shift_statistics 1 statistics_session = (statistics_session, Return (Some stats)) ∧
    close_active_shift 12 1 640 statistics_session
    = (mkSession (<[1 := closed]> (shifts statistics_session))
         (transactions statistics_session) (orders statistics_session)
         (employees statistics_session) (statuses statistics_session)
         (history statistics_session),
       Return closed) ∧
    CashShift.is_closed closed = true ∧
    CashShift.end_time closed = Some 12 ∧
    CashShift.end_cash_actual closed = Some 640 ∧
    CashShift.total_sales_cash closed = stat_total_sales_cash stats ∧
    CashShift.total_sales_card closed = stat_total_sales_card stats ∧
    CashShift.service_in closed = stat_service_in stats ∧
    CashShift.service_out closed = stat_service_out stats ∧
    CashShift.employee_id closed = 7 ∧
    CashShift.start_time closed = 0 ∧
    CashShift.start_cash closed = Some 500.
Proof.
  apply (close_active_shift_freezes 12 1 640 statistics_session
           (CashShift.mk 7 0 (Some 500) false None None 0 0 0 0)); reflexivity.
Defined.

Lemma ledger_step_closes_open (s s' : Session) :
  ledger_step s s' →
  shifts s' = shifts s
  ∨ (∃ now e c, shifts s' = <[next_id (shifts s) := new_shift now e c]> (shifts s))
  ∨ (∃ k shift closed, shifts s !! k = Some shift ∧ CashShift.is_closed shift = false ∧
       shifts s' = <[k := closed]> (shifts s)).
Proof.
  intros Hstep.
  destruct Hstep as [|now e c Hnone|k sh cl Hk Hopen ? Hcl|k o o' s1 h Hk Ho Hs1|? ? ? ? ? ? ? ?|?];
    simpl; try by left.
  - right. left. by exists now, e, c.
  - right. right. by exists k, sh, cl.
  - left. destruct Hs1 as [->|(linked & _ & Hdebt)]; [done|].
    by apply debt_step_tables in Hdebt as (? & _ & _).
Qed.

(** X3. A shift that is closed is never written again: through every
    sequence of calls into the ledger its row, with the cached totals, stays
    exactly as it is; in particular a second [close_active_shift] on it
    raises. *)
Theorem closed_shift_is_final (ops : list Op) (s : Session) (shift_id : Z)
    (shift : CashShift.t) :
  shifts s !! shift_id = Some shift →
  CashShift.is_closed shift = true →
  shifts (run_ops ops s) !! shift_id = Some shift ∧
  ∀ now end_cash_actual,
    close_active_shift now shift_id end_cash_actual (run_ops ops s)
    = (run_ops ops s, Raise ShiftMissingOrAlreadyClosed).
Proof.
  intros Hshift Hclosed.
  assert (shifts (run_ops ops s) !! shift_id = Some shift) as Hkept.
  { apply (run_ops_invariant (λ s', shifts s' !! shift_id = Some shift)); [|done].
    intros s1 s2 H1 H12.
    destruct (ledger_step_closes_open s1 s2 H12)
      as [->|[(now & e & c & ->)|(k & sh & cl & Hk & Hopen & ->)]]; [done|..].
    - rewrite lookup_insert_ne; [done|]. intros Heq.
      pose proof (next_id_fresh (shifts s1)) as Hfresh. rewrite Heq in Hfresh. congruence.
    - rewrite lookup_insert_ne; [done|]. intros ->. congruence. }
  split; [done|]. intros now c. apply close_active_shift_raises. right. by exists shift.
Qed.

Lemma closed_shift_is_final_witness :
  shifts (run_ops [OpCloseShift 12 1 500; OpOpenShift 13 7 100; OpHandover 1 3 [10]]
            closed_session) !! 1
  = Some (CashShift.mk 7 0 (Some 500) true (Some 9) (Some 500) 0 0 0 0).
Proof.
  apply (closed_shift_is_final _ closed_session 1
           (CashShift.mk 7 0 (Some 500) true (Some 9) (Some 500) 0 0 0 0));
    reflexivity.
Defined.

(** The report of a shift reads the shift row only for its start time and
    start cash. *)
Lemma get_shift_statistics_after_close (now shift_id end_cash_actual : Z) (s : Session)
    (shift : CashShift.t) (stats : ShiftStatistics) (k : Z) :
  shifts s !! shift_id = Some shift →
  (get_shift_statistics k
     (set_shifts (<[shift_id := closed_shift now end_cash_actual stats shift]> (shifts s)) s)).2
  = (get_shift_statistics k s).2.
Proof.
  intros Hshift. unfold get_shift_statistics. cbv beta iota delta [bind gets ret].
  cbn [shifts set_shifts]. destruct (decide (shift_id = k)) as [<-|Hne].
  - rewrite lookup_insert_eq, Hshift. cbv beta iota.
    change (sales_query shift_id (set_shifts ?t s)) with (sales_query shift_id s).
    change (trans_query shift_id (set_shifts ?t s)) with (trans_query shift_id s).
    change (query_collected_cash shift_id (set_shifts ?t s))
      with (query_collected_cash shift_id s).
    destruct (sales_loop _) as [cash card].
    by destruct (trans_loop _) as [[service_in service_out] handover_in].
  - rewrite lookup_insert_ne by done.
    destruct (shifts s !! k) as [sh|]; [|done]. cbv beta iota.
    change (sales_query k (set_shifts ?t s)) with (sales_query k s).
    change (trans_query k (set_shifts ?t s)) with (trans_query k s).
    change (query_collected_cash k (set_shifts ?t s)) with (query_collected_cash k s).
    destruct (sales_loop _) as [cash card].
    by destruct (trans_loop _) as [[service_in service_out] handover_in].
Qed.

(** X4. Closing a shift changes no report: the report of every shift,
    the closed one included, is the same after [close_active_shift] as
    before, so the totals cached on the closed shift are those a later
    report shows. *)
Theorem close_keeps_reports (now shift_id end_cash_actual : Z) (s : Session)
    (shift : CashShift.t) (k : Z) :
  shifts s !! shift_id = Some shift →
  CashShift.is_closed shift = false →
  (get_shift_statistics k (close_active_shift now shift_id end_cash_actual s).1).2
  = (get_shift_statistics k s).2.
Proof.
  intros Hshift Hopen.
  destruct (close_active_shift_success now shift_id end_cash_actual s shift Hshift Hopen)
    as (stats & _ & ->).
  by apply get_shift_statistics_after_close.
Qed.

Lemma close_keeps_reports_witness :
  (get_shift_statistics 1 (close_active_shift 12 1 640 statistics_session).1).2
  = (get_shift_statistics 1 statistics_session).2.
Proof.
  apply (close_keeps_reports 12 1 640 statistics_session
           (CashShift.mk 7 0 (Some 500) false None None 0 0 0 0)); reflexivity.
Defined.

(** X5. After an employee's open shift is closed the employee has no open
    shift left (given at most one was open), so [open_new_shift] succeeds for
    that employee, under a new key; and the closed shift accepts no handover:
    [process_handover] raises and changes nothing. *)
Theorem closed_shift_hands_over_nothing (now shift_id end_cash_actual : Z) (s : Session)
    (shift : CashShift.t) :
  one_open_shift s →
  shifts s !! shift_id = Some shift →
  CashShift.is_closed shift = false →
  let s' := (close_active_shift now shift_id end_cash_actual s).1 in
  ¬ has_open_shift (CashShift.employee_id shift) s' ∧
  (∀ now' start_cash, ∃ k new,
     open_new_shift now' (CashShift.employee_id shift) start_cash s'
     = (set_shifts (<[k := new]> (shifts s')) s', Return (k, new)) ∧ k ≠ shift_id) ∧
  (∀ employee_id order_ids,
     process_handover shift_id employee_id order_ids s' = (s', Raise CashierShiftMissingOrClosed)).
Proof.
  intros Hone Hshift Hopen s'.
  destruct (close_active_shift_success now shift_id end_cash_actual s shift Hshift Hopen)
    as (stats & _ & Hclose).
  unfold s'. rewrite Hclose. cbn [fst]. clear s'.
  set (s' := set_shifts _ s).
  assert (¬ has_open_shift (CashShift.employee_id shift) s') as Hnone.
  { intros (k & sh & Hk & He & Ho). unfold s' in Hk. cbn [shifts set_shifts] in Hk.
    destruct (decide (shift_id = k)) as [<-|Hne].
    - rewrite lookup_insert_eq in Hk. by injection Hk as <-.
    - rewrite lookup_insert_ne in Hk by done.
      destruct Hne. by apply (Hone shift_id k shift sh). }
  split_and!; [done|..].
  - intros now' c.
    destruct (open_new_shift_cases now' (CashShift.employee_id shift) c s')
      as [[Hhas _]|[_ ->]]; [done|].
    eexists _, _. split; [done|]. intros Heq.
    pose proof (next_id_fresh (shifts s')) as Hfresh. rewrite Heq in Hfresh.
    unfold s' in Hfresh. cbn [shifts set_shifts] in Hfresh.
    by rewrite lookup_insert_eq in Hfresh.
  - intros e ids. unfold process_handover. cbv beta iota delta [bind gets raise].
    unfold s'. cbn [shifts set_shifts]. by rewrite lookup_insert_eq.
Qed.

Lemma closed_shift_hands_over_nothing_witness :
  ¬ has_open_shift 7 (close_active_shift 12 1 640 statistics_session).1.
Proof.
  refine (proj1 (closed_shift_hands_over_nothing 12 1 640 statistics_session
                   (CashShift.mk 7 0 (Some 500) false None None 0 0 0 0) _ eq_refl eq_refl)).
  unfold one_open_shift, statistics_session. cbn [shifts].
  intros k1 k2 sh1 sh2 [<- _]%lookup_singleton_Some [<- _]%lookup_singleton_Some. done.
Defined.

(** ** Handing over *)

(** X6. The checks of [process_handover] come in order: a shift that is
    missing or closed gives the shift error whatever the employee and the
    batch are; with an open shift, an unknown employee gives the employee
    error whatever the batch is.  Neither changes the session. *)
Theorem process_handover_checks (s : Session) (shift_id employee_id : Z)
    (order_ids : list Z) :
  (shifts s !! shift_id = None
   ∨ (∃ shift, shifts s !! shift_id = Some shift ∧ CashShift.is_closed shift = true) →
   process_handover shift_id employee_id order_ids s = (s, Raise CashierShiftMissingOrClosed)) ∧
  ((∃ shift, shifts s !! shift_id = Some shift ∧ CashShift.is_closed shift = false) →
   employees s !! employee_id = None →
   process_handover shift_id employee_id order_ids s = (s, Raise EmployeeNotFound)).
Proof.
  unfold process_handover. cbv beta iota delta [bind gets raise]. split.
  - intros [Hnone|(shift & Hshift & Hclosed)].
    + by rewrite Hnone.
    + rewrite Hshift. cbv beta iota. by rewrite Hclosed.
  - intros (shift & Hshift & Hopen) Hemp.
    rewrite Hshift. cbv beta iota. rewrite Hopen, Hemp. done.
Qed.

Lemma process_handover_checks_witness :
  process_handover 1 3 [10] closed_session = (closed_session, Raise CashierShiftMissingOrClosed) ∧
  process_handover 1 4 [10] one_order_session = (one_order_session, Raise EmployeeNotFound).
Proof.
  split.
  - apply (proj1 (process_handover_checks closed_session 1 3 [10])).
    right. eexists. split; reflexivity.
  - apply (proj2 (process_handover_checks one_order_session 1 4 [10])); [|reflexivity].
    eexists. split; reflexivity.
Defined.

Lemma process_handover_nothing_left (s : Session) (shift_id employee_id : Z)
    (order_ids : list Z) (shift : CashShift.t) (employee : Employee.t) :
  shifts s !! shift_id = Some shift →
  CashShift.is_closed shift = false →
  employees s !! employee_id = Some employee →
  (∀ k o, k ∈ order_ids → orders s !! k = Some o → Order.is_cash_turned_in o = true) →
  process_handover shift_id employee_id order_ids s = (s, Raise NoOrdersToHandOver).
Proof.
  intros Hshift Hopen Hemp Hall.
  assert (select_where (unsettled_in order_ids) (orders s) = []) as Hnil.
  { apply select_where_nil. intros k o Hk. unfold unsettled_in. simpl.
    destruct (decide (k ∈ order_ids)) as [Hin|Hnin].
    - rewrite (Hall k o Hin Hk). apply andb_false_r.
    - by rewrite bool_decide_eq_false_2. }
  unfold process_handover. cbv beta iota delta [bind gets raise].
  rewrite Hshift. cbv beta iota. rewrite Hopen, Hemp. cbv beta iota. by rewrite Hnil.
Qed.

(** X7. A successful handover touches nothing outside its batch: the
    shifts, the statuses and the history are as before; an order that is not
    named in the batch, or that was already turned in, keeps its row; every
    other employee keeps the balance; no order appears or disappears. *)
Theorem process_handover_frame (s s' : Session) (shift_id employee_id : Z)
    (order_ids : list Z) (total : Z) :
  process_handover shift_id employee_id order_ids s = (s', Return total) →
  shifts s' = shifts s ∧ statuses s' = statuses s ∧ history s' = history s ∧
  (∀ k, k ∉ order_ids → orders s' !! k = orders s !! k) ∧
  (∀ k o, orders s !! k = Some o → Order.is_cash_turned_in o = true →
     orders s' !! k = Some o) ∧
  (∀ k, is_Some (orders s' !! k) ↔ is_Some (orders s !! k)) ∧
  (∀ e, e ≠ employee_id → employees s' !! e = employees s !! e).
Proof.
  intros Hrun.
  destruct (process_handover_cases shift_id employee_id order_ids s)
    as [[err Heq]|(shift & emp & _ & _ & _ & Heq)]; rewrite Heq in Hrun; [done|].
  injection Hrun as <- <-. unfold after_handover. cbn.
  split_and!; try done.
  - intros k Hk. rewrite lookup_handed_over. destruct (orders s !! k) as [o|]; [|done].
    simpl. unfold unsettled_in. simpl. by rewrite bool_decide_eq_false_2.
  - intros k o Hk Hturned. rewrite lookup_handed_over, Hk. simpl.
    unfold unsettled_in. simpl. by rewrite Hturned, andb_false_r.
  - intros k. rewrite lookup_handed_over. by rewrite fmap_is_Some.
  - intros e Hne. by rewrite lookup_insert_ne.
Qed.

Lemma process_handover_frame_witness :
  orders (process_handover 1 3 [10] round_trip_session).1 !! 11
    = orders round_trip_session !! 11 ∧
  employees (process_handover 1 3 [10] round_trip_session).1 !! 4
    = employees round_trip_session !! 4.
Proof.
  assert (process_handover 1 3 [10] round_trip_session
          = ((process_handover 1 3 [10] round_trip_session).1, Return 150)) as Hrun
    by reflexivity.
  destruct (process_handover_frame round_trip_session _ 1 3 [10] 150 Hrun)
    as (_ & _ & _ & Hout & _ & _ & Hemp).
  split; [|by apply Hemp].
  apply Hout. intros Hin. apply list_elem_of_singleton in Hin. discriminate Hin.
Defined.

(** X8. A handover cannot be taken twice: after a successful
    [process_handover] the same call raises the no-orders error and changes
    nothing, since every order of the batch is now turned in. *)
Theorem process_handover_twice (s s' : Session) (shift_id employee_id : Z)
    (order_ids : list Z) (total : Z) :
  process_handover shift_id employee_id order_ids s = (s', Return total) →
  process_handover shift_id employee_id order_ids s' = (s', Raise NoOrdersToHandOver).
Proof.
  intros Hrun.
  destruct (process_handover_cases shift_id employee_id order_ids s)
    as [[err Heq]|(shift & emp & Hshift & Hopen & Hemp & Heq)]; rewrite Heq in Hrun; [done|].
  injection Hrun as <- <-.
  eapply (process_handover_nothing_left _ _ _ _ shift); [done|done|apply lookup_insert_eq|].
  intros k o' Hin. cbn [orders after_handover]. rewrite lookup_handed_over.
  destruct (orders s !! k) as [o|]; [|done]. simpl. intros [= <-].
  unfold unsettled_in. simpl. rewrite bool_decide_eq_true_2 by done. simpl.
  destruct (Order.is_cash_turned_in o) eqn:Hturned; simpl; [done|].
  apply hand_over_turned_in.
Qed.

Lemma process_handover_twice_witness :
  process_handover 1 3 [10] (process_handover 1 3 [10] one_order_session).1
  = ((process_handover 1 3 [10] one_order_session).1, Raise NoOrdersToHandOver).
Proof.
  apply (process_handover_twice one_order_session _ 1 3 [10] 150). reflexivity.
Defined.

(** ** Debts *)

Lemma register_employee_debt_cash (order : Order.t) (employee_id : Z) (s : Session)
    (employee : Employee.t) :
  Order.payment_method order = "cash" →
  employees s !! employee_id = Some employee →
  register_employee_debt order employee_id s
  = (mkSession (shifts s) (transactions s) (orders s)
       (<[employee_id :=
            Employee.mk (Employee.telegram_user_id employee) (Employee.full_name employee)
              (Employee.cash_balance employee + Order.total_price order)]> (employees s))
       (statuses s) (history s),
     Return (set_is_cash_turned_in false order)).
Proof.
  intros Hcash Hemp. unfold register_employee_debt. rewrite Hcash. simpl.
  cbv beta iota delta [bind gets modify ret]. by rewrite Hemp.
Qed.

(** X9. [register_employee_debt] does nothing for an order that is not paid
    in cash and nothing when the employee is unknown (the order then keeps
    its turned-in flag); for a cash order and a known employee it adds the
    total of the order to that employee's balance, marks the order as not
    turned in, and touches no other employee and no other table. *)
Theorem register_employee_debt_cases (order : Order.t) (employee_id : Z) (s : Session) :
  (Order.payment_method order ≠ "cash" →
   register_employee_debt order employee_id s = (s, Return order)) ∧
  (employees s !! employee_id = None →
   register_employee_debt order employee_id s = (s, Return order)) ∧
  (∀ employee,
     Order.payment_method order = "cash" →
     employees s !! employee_id = Some employee →
     register_employee_debt order employee_id s
     = (mkSession (shifts s) (transactions s) (orders s)
          (<[employee_id :=
               Employee.mk (Employee.telegram_user_id employee) (Employee.full_name employee)
                 (Employee.cash_balance employee + Order.total_price order)]> (employees s))
          (statuses s) (history s),
        Return (set_is_cash_turned_in false order))).
Proof.
  unfold register_employee_debt. split_and!.
  - intros Hne. by rewrite (proj2 (String.eqb_neq _ _) Hne).
  - intros Hnone. destruct (negb _); [done|].
    cbv beta iota delta [bind gets modify ret]. by rewrite Hnone.
  - intros employee Hcash Hemp. fold (register_employee_debt order employee_id).
    by apply register_employee_debt_cash.
Qed.

Lemma register_employee_debt_cases_witness :
  register_employee_debt card_order 3 round_trip_session = (round_trip_session, Return card_order) ∧
  register_employee_debt one_order_order 9 round_trip_session
  = (round_trip_session, Return one_order_order).
Proof.
  split.
  - apply (proj1 (register_employee_debt_cases card_order 3 round_trip_session)). discriminate.
  - apply (proj1 (proj2 (register_employee_debt_cases one_order_order 9 round_trip_session))).
    reflexivity.
Defined.

(** X10. Round trip of a debt.  When the debt of a cash order is registered
    on an employee whose balance is not negative, and a cashier with an open
    shift then takes the handover of that one order, the handover returns the
    total of the order, the balance of the employee is what it was before the
    debt, and the order is turned in. *)
Theorem debt_round_trip (s : Session) (shift_id employee_id order_id : Z)
    (shift : CashShift.t) (employee : Employee.t) (order : Order.t) :
  shifts s !! shift_id = Some shift →
  CashShift.is_closed shift = false →
  employees s !! employee_id = Some employee →
  0 ≤ Employee.cash_balance employee →
  orders s !! order_id = Some order →
  Order.payment_method order = "cash" →
  let s1 := (run_op (OpRegisterDebt order_id employee_id) s).1 in
  (∃ employee1,
     employees s1 !! employee_id = Some employee1 ∧
     Employee.cash_balance employee1
     = Employee.cash_balance employee + Order.total_price order) ∧
  ∃ s2 order2,
    process_handover shift_id employee_id [order_id] s1
      = (s2, Return (Order.total_price order)) ∧
    employees s2 !! employee_id = Some employee ∧
    orders s2 !! order_id = Some order2 ∧
    Order.is_cash_turned_in order2 = true.
Proof.
  intros Hshift Hopen Hemp Hbal Hord Hcash s1.
  assert (s1 = mkSession (shifts s) (transactions s)
                 (<[order_id := set_is_cash_turned_in false order]> (orders s))
                 (<[employee_id :=
                      Employee.mk (Employee.telegram_user_id employee)
                        (Employee.full_name employee)
                        (Employee.cash_balance employee + Order.total_price order)]>
                    (employees s))
                 (statuses s) (history s)) as ->.
  { unfold s1. cbn [run_op]. unfold with_order.
    cbv beta iota delta [bind gets modify]. rewrite Hord. cbv beta iota.
    rewrite (register_employee_debt_cash order employee_id s employee Hcash Hemp).
    reflexivity. }
  split.
  { eexists. cbn [employees]. by rewrite lookup_insert_eq. }
  set (s1 := mkSession _ _ _ _ _ _).
  assert (orders s1 !! order_id = Some (set_is_cash_turned_in false order)) as Hord1
    by apply lookup_insert_eq.
  eexists _, (hand_over shift_id (set_is_cash_turned_in false order)). split_and!.
  - rewrite (process_handover_success s1 shift_id employee_id [order_id] shift
               (Employee.mk (Employee.telegram_user_id employee) (Employee.full_name employee)
                  (Employee.cash_balance employee + Order.total_price order))); try done.
    + by rewrite (handover_total_single _ _ _ Hord1).
    + apply lookup_insert_eq.
    + apply (select_unsettled_nonempty _ _ order_id _ Hord1); [set_solver|done].
  - unfold after_handover. cbn [employees].
    rewrite (handover_total_single _ _ _ Hord1) by done.
    rewrite lookup_insert_eq. unfold set_cash_balance. cbn.
    destruct employee as [tg name bal]. cbn in *. do 2 f_equal. lia.
  - unfold after_handover. cbn [orders]. rewrite lookup_handed_over, Hord1. cbn [fmap option_fmap option_map].
    unfold unsettled_in. cbn [fst snd Order.is_cash_turned_in set_is_cash_turned_in].
    rewrite bool_decide_eq_true_2 by set_solver. done.
  - apply hand_over_turned_in.
Qed.

Lemma debt_round_trip_witness :
  ∃ s2 order2,
    process_handover 1 3 [10] (run_op (OpRegisterDebt 10 3) round_trip_session).1
      = (s2, Return 150) ∧
    employees s2 !! 3 = Some (Employee.mk None "E" 40) ∧
    orders s2 !! 10 = Some order2 ∧
    Order.is_cash_turned_in order2 = true.
Proof.
  refine (proj2 (debt_round_trip round_trip_session 1 3 10 one_order_shift
                   (Employee.mk None "E" 40) (Order.mk "cash" 150 false None (Some 3) None 1)
                   eq_refl eq_refl eq_refl _ eq_refl eq_refl)).
  simpl. lia.
Defined.

(** ** Sums over tables *)

Lemma table_sum_empty {A} (w : Z * A → Z) : table_sum w (∅ : gmap Z A) = 0.
Proof. unfold table_sum. by rewrite map_to_list_empty. Qed.

Lemma table_sum_insert {A} (w : Z * A → Z) (tbl : gmap Z A) (k : Z) (v : A) :
  tbl !! k = None → table_sum w (<[k := v]> tbl) = w (k, v) + table_sum w tbl.
Proof.
  intros Hk. unfold table_sum. by rewrite (map_to_list_insert tbl k v Hk), fmap_cons.
Qed.

Lemma table_sum_ext {A} (w1 w2 : Z * A → Z) (tbl : gmap Z A) :
  (∀ k v, tbl !! k = Some v → w1 (k, v) = w2 (k, v)) →
  table_sum w1 tbl = table_sum w2 tbl.
Proof.
  induction tbl as [|k v tbl Hk IH] using map_ind; intros Hext.
  - by rewrite !table_sum_empty.
  - rewrite !table_sum_insert by done. rewrite IH.
    + by rewrite (Hext k v) by apply lookup_insert_eq.
    + intros k' v' Hk'. apply Hext. rewrite lookup_insert_ne; [done|]. intros ->. congruence.
Qed.

Lemma table_sum_plus {A} (w1 w2 : Z * A → Z) (tbl : gmap Z A) :
  table_sum (λ r, w1 r + w2 r) tbl = table_sum w1 tbl + table_sum w2 tbl.
Proof.
  induction tbl as [|k v tbl Hk IH] using map_ind.
  - by rewrite !table_sum_empty.
  - rewrite !table_sum_insert by done. rewrite IH. lia.
Qed.

Lemma select_where_insert {A} (P : Z * A → bool) (tbl : gmap Z A) (k : Z) (v : A) :
  tbl !! k = None →
  select_where P (<[k := v]> tbl) ≡ₚ (if P (k, v) then [(k, v)] else []) ++ select_where P tbl.
Proof.
  intros Hk.
  rewrite (select_where_delete P (<[k := v]> tbl) k v) by apply lookup_insert_eq.
  by rewrite delete_insert_id.
Qed.

(** A sum over the selected rows is a sum over all rows with the others
    weighted 0. *)
Lemma sum_select_where {A} (P : Z * A → bool) (w : Z * A → Z) (tbl : gmap Z A) :
  sum_list_Z (w <$> select_where P tbl) = table_sum (λ r, if P r then w r else 0) tbl.
Proof.
  induction tbl as [|k v tbl Hk IH] using map_ind.
  - rewrite table_sum_empty. unfold select_where. by rewrite map_filter_empty, map_to_list_empty.
  - rewrite table_sum_insert by done. rewrite <- IH.
    rewrite (select_where_insert P tbl k v Hk), fmap_app, sum_list_Z_app.
    f_equal. destruct (P (k, v)); cbn; lia.
Qed.

Lemma table_sum_handed_over (w : Z * Order.t → Z) (shift_id : Z) (order_ids : list Z)
    (tbl : gmap Z Order.t) :
  table_sum w (handed_over shift_id order_ids tbl)
  = table_sum (λ r, w (r.1, if unsettled_in order_ids r then hand_over shift_id r.2 else r.2)) tbl.
Proof.
  unfold handed_over. induction tbl as [|k v tbl Hk IH] using map_ind.
  - by rewrite map_imap_empty, !table_sum_empty.
  - rewrite (map_imap_insert_Some _ _ _ _ _ eq_refl).
    rewrite !table_sum_insert; [by rewrite IH|done|].
    by rewrite map_lookup_imap, Hk.
Qed.

Lemma key_total_rows {A} (key : A → string) (value : A → Z) (k : string) (l : list A) :
  key_total k ((λ r, (key r, value r)) <$> l)
  = sum_list_Z ((λ r, if String.eqb (key r) k then value r else 0) <$> l).
Proof.
  induction l as [|r l IH]; [done|].
  rewrite !fmap_cons, key_total_cons, sum_list_Z_cons, IH. done.
Qed.

Lemma sales_loop_from (rows : list (string * Z)) (a b : Z) :
  fold_left (λ (acc : Z * Z) (row : string * Z),
      let amount_decimal := or_zero (Some row.2) in
      if String.eqb row.1 "cash" then (acc.1 + amount_decimal, acc.2)
      else if String.eqb row.1 "card" then (acc.1, acc.2 + amount_decimal)
      else acc)
    rows (a, b)
  = (a + key_total "cash" rows, b + key_total "card" rows).
Proof.
  revert a b. induction rows as [|[t v] rows IH]; intros a b.
  - cbn. rewrite pair_equal_spec. split; lia.
  - cbn [fold_left]. rewrite !key_total_cons. cbn [fst snd]. rewrite or_zero_Some.
    destruct (String.eqb_spec t "cash") as [->|Hcash].
    { rewrite IH. simpl. rewrite pair_equal_spec. split; lia. }
    destruct (String.eqb_spec t "card") as [->|Hcard].
    { rewrite IH. simpl. rewrite pair_equal_spec. split; lia. }
    rewrite IH. rewrite pair_equal_spec. split; lia.
Qed.

Lemma sales_loop_sales_query (shift_id : Z) (s : Session) :
  sales_loop (sales_query shift_id s)
  = (sales_total shift_id "cash" s, sales_total shift_id "card" s).
Proof.
  unfold sales_loop. rewrite sales_loop_from. unfold sales_query.
  rewrite !key_total_group_sum.
  rewrite !(key_total_rows (λ r : Z * Order.t, Order.payment_method r.2)
              (λ r : Z * Order.t, Order.total_price r.2)).
  unfold sales_total. rewrite !sum_select_where. rewrite pair_equal_spec.
  split; rewrite Z.add_0_l; apply table_sum_ext; intros k o _; cbn [fst snd];
    by destruct (bool_decide _), (String.eqb _ _).
Qed.

Lemma get_shift_statistics_fields (s : Session) (shift_id : Z) (shift : CashShift.t) :
  shifts s !! shift_id = Some shift →
  ∃ stats : ShiftStatistics,
    get_shift_statistics shift_id s = (s, Return (Some stats)) ∧
    stat_shift_id stats = shift_id ∧
    stat_start_time stats = CashShift.start_time shift ∧
    stat_start_cash stats = default 0 (CashShift.start_cash shift) ∧
    stat_total_sales_cash stats = sales_total shift_id "cash" s ∧
    stat_total_sales_card stats = sales_total shift_id "card" s ∧
    stat_total_sales stats = sales_total shift_id "cash" s + sales_total shift_id "card" s ∧
    stat_service_in stats = transactions_total shift_id "in" s ∧
    stat_service_out stats = transactions_total shift_id "out" s ∧
    stat_handover_in stats = transactions_total shift_id "handover" s.
Proof.
  intros Hshift. unfold get_shift_statistics.
  cbv beta iota delta [bind gets ret]. rewrite Hshift. cbv beta iota.
  rewrite sales_loop_sales_query. cbv beta iota.
  rewrite trans_loop_trans_query. cbv beta iota.
  eexists. split; [done|]. by split_and!.
Qed.

(** X11. The report of a shift that exists, field by field: the cash and
    card sales are the totals of all orders linked to the shift that are paid
    by cash and by card, turned in or not, and the total sales their sum;
    service in, service out and handover in are the amounts of the
    transactions of the shift of type in, out and handover; start time and
    start cash (0 when absent) are those of the shift.  Orders paid otherwise
    and transactions of another type count in no field, and the session is
    left as it is. *)
Theorem report_of_shift (s : Session) (shift_id : Z) (shift : CashShift.t) :
  shifts s !! shift_id = Some shift →
  ∃ stats : ShiftStatistics,
    get_shift_statistics shift_id s = (s, Return (Some stats)) ∧
    stat_shift_id stats = shift_id ∧
    stat_start_time stats = CashShift.start_time shift ∧
    stat_start_cash stats = default 0 (CashShift.start_cash shift) ∧
    stat_total_sales_cash stats = sales_total shift_id "cash" s ∧
    stat_total_sales_card stats = sales_total shift_id "card" s ∧
    stat_total_sales stats = sales_total shift_id "cash" s + sales_total shift_id "card" s ∧
    stat_service_in stats = transactions_total shift_id "in" s ∧
    stat_service_out stats = transactions_total shift_id "out" s ∧
    stat_handover_in stats = transactions_total shift_id "handover" s.
Proof. apply get_shift_statistics_fields. Qed.

Lemma report_of_shift_witness :
  ∃ stats : ShiftStatistics,
    get_shift_statistics 1 statistics_session = (statistics_session, Return (Some stats)) ∧
    stat_total_sales_cash stats = 200 ∧
    stat_service_out stats = 50 ∧
    stat_handover_in stats = 0.
Proof.
  destruct (report_of_shift statistics_session 1
              (CashShift.mk 7 0 (Some 500) false None None 0 0 0 0) eq_refl)
    as (stats & Hrun & _ & _ & _ & Hcash & _ & _ & _ & Hout & Hhand).
  exists stats. split; [exact Hrun|]. rewrite Hcash, Hout, Hhand. by split_and!.
Defined.

(** ** What reaches the drawer *)

Lemma transactions_total_snoc (k : Z) (kind : string) (s s' : Session)
    (tx : CashTransaction.t) :
  transactions s' = transactions s ++ [tx] →
  transactions_total k kind s'
  = transactions_total k kind s
    + (if (CashTransaction.shift_id tx =? k)
          && String.eqb (CashTransaction.transaction_type tx) kind
       then CashTransaction.amount tx else 0).
Proof.
  intros Heq. unfold transactions_total. rewrite Heq, List.filter_app, fmap_app, sum_list_Z_app.
  f_equal. cbn [List.filter]. destruct (_ && _); cbn; lia.
Qed.

Lemma collected_cash_orders_same (k : Z) (s s' : Session) :
  orders s' = orders s → collected_cash_orders k s' = collected_cash_orders k s.
Proof. intros Heq. unfold collected_cash_orders. by rewrite Heq. Qed.

Lemma theoretical_cash_unique (s : Session) (k : Z) (shift : CashShift.t)
    (stats : ShiftStatistics) :
  shifts s !! k = Some shift →
  get_shift_statistics k s = (s, Return (Some stats)) →
  stat_theoretical_cash stats
  = default 0 (CashShift.start_cash shift) + collected_cash_orders k s
    + transactions_total k "in" s - transactions_total k "out" s ∧
  stat_handover_in stats = transactions_total k "handover" s.
Proof.
  intros Hshift Hrun.
  destruct (theoretical_cash_of_shift s k shift Hshift) as (st & Hst & Hcash).
  destruct (get_shift_statistics_fields s k shift Hshift) as (st' & Hst' & Hfields).
  assert (st = stats) as -> by congruence. assert (st' = stats) as -> by congruence.
  split; [done|]. apply Hfields.
Qed.

Lemma collected_after_handover (shift_id : Z) (order_ids : list Z) (s s' : Session) :
  orders s' = handed_over shift_id order_ids (orders s) →
  collected_cash_orders shift_id s'
  = collected_cash_orders shift_id s + handover_cash shift_id order_ids (orders s).
Proof.
  intros Heq. unfold collected_cash_orders, handover_cash.
  rewrite Heq, !sum_select_where, table_sum_handed_over, <- table_sum_plus.
  apply table_sum_ext. intros k o _. cbn [fst snd].
  destruct (unsettled_in order_ids (k, o)) eqn:Hsel; cbn [andb].
  2:{ lia. }
  assert (Order.is_cash_turned_in o = false) as Hturned.
  { unfold unsettled_in in Hsel. apply andb_prop in Hsel as [_ Hneg].
    by apply negb_true_iff in Hneg. }
  rewrite Hturned, andb_false_r, hand_over_turned_in, andb_true_r, hand_over_links.
  assert (Order.payment_method (hand_over shift_id o) = Order.payment_method o) as ->
    by apply order_step_hand_over.
  assert (Order.total_price (hand_over shift_id o) = Order.total_price o) as ->
    by apply order_step_hand_over.
  destruct (truthy (Order.cash_shift_id o)); cbn [negb orb].
  - rewrite orb_false_r.
    destruct (bool_decide _), (String.eqb _ _); cbn [andb]; lia.
  - rewrite orb_true_r, bool_decide_eq_true_2 by done.
    destruct (String.eqb _ _); cbn [andb]; lia.
Qed.

(** X12. What a successful handover does to the report of the cashier's
    shift: the theoretical cash grows by the totals of the cash orders of the
    batch that were not turned in and are linked to this shift or to none
    (these get linked to it), and by nothing for card orders or orders of
    another shift; the informational handover-in grows by the whole amount
    returned. *)
Theorem handover_fills_drawer (s s' : Session) (shift_id employee_id : Z)
    (order_ids : list Z) (total : Z) :
  process_handover shift_id employee_id order_ids s = (s', Return total) →
  ∃ stats stats' : ShiftStatistics,
    get_shift_statistics shift_id s = (s, Return (Some stats)) ∧
    get_shift_statistics shift_id s' = (s', Return (Some stats')) ∧
    stat_theoretical_cash stats'
    = stat_theoretical_cash stats + handover_cash shift_id order_ids (orders s) ∧
    stat_handover_in stats' = stat_handover_in stats + total.
Proof.
  intros Hrun.
  destruct (process_handover_cases shift_id employee_id order_ids s)
    as [[err Heq]|(shift & emp & Hshift & _ & _ & Heq)]; rewrite Heq in Hrun; [done|].
  injection Hrun as <- <-.
  set (s' := after_handover shift_id employee_id order_ids emp s).
  assert (shifts s' !! shift_id = Some shift) as Hshift' by done.
  destruct (theoretical_cash_of_shift s shift_id shift Hshift) as (st & Hst & _).
  destruct (theoretical_cash_of_shift s' shift_id shift Hshift') as (st' & Hst' & _).
  destruct (theoretical_cash_unique s shift_id shift st Hshift Hst) as [Hcash Hhand].
  destruct (theoretical_cash_unique s' shift_id shift st' Hshift' Hst') as [Hcash' Hhand'].
  exists st, st'. split_and!; [done|done|..].
  - rewrite Hcash, Hcash'.
    rewrite (collected_after_handover shift_id order_ids s s' eq_refl).
    rewrite !(transactions_total_snoc shift_id _ s s' _ eq_refl). cbn. lia.
  - rewrite Hhand, Hhand'.
    rewrite (transactions_total_snoc shift_id _ s s' _ eq_refl). cbn.
    by rewrite Z.eqb_refl.
Qed.

Lemma handover_fills_drawer_witness :
  ∃ stats stats' : ShiftStatistics,
    get_shift_statistics 1 card_session = (card_session, Return (Some stats)) ∧
    get_shift_statistics 1 (process_handover 1 3 [10; 11] card_session).1
      = ((process_handover 1 3 [10; 11] card_session).1, Return (Some stats')) ∧
    stat_theoretical_cash stats'
    = stat_theoretical_cash stats + handover_cash 1 [10; 11] (orders card_session) ∧
    stat_handover_in stats' = stat_handover_in stats + 230.
Proof.
  apply (handover_fills_drawer card_session _ 1 3 [10; 11] 230). reflexivity.
Defined.

(** X13. What a transaction added by [add_shift_transaction] does to the
    reports: for the shift it names, the theoretical cash grows by the amount
    when the type is in, falls by the amount when the type is out, and stays
    for any other type; the report of every other shift stays as it is. *)
Theorem transaction_moves_drawer (s : Session) (shift_id amount : Z)
    (t_type comment : string) (k : Z) (shift : CashShift.t) :
  shifts s !! k = Some shift →
  let s' := (add_shift_transaction shift_id amount t_type comment s).1 in
  ∃ stats stats' : ShiftStatistics,
    get_shift_statistics k s = (s, Return (Some stats)) ∧
    get_shift_statistics k s' = (s', Return (Some stats')) ∧
    stat_theoretical_cash stats'
    = stat_theoretical_cash stats
      + (if shift_id =? k then
           if String.eqb t_type "in" then amount
           else if String.eqb t_type "out" then - amount
           else 0
         else 0).
Proof.
  intros Hshift s'.
  assert (shifts s' !! k = Some shift) as Hshift' by done.
  destruct (theoretical_cash_of_shift s k shift Hshift) as (st & Hst & Hcash).
  destruct (theoretical_cash_of_shift s' k shift Hshift') as (st' & Hst' & Hcash').
  exists st, st'. split_and!; [done|done|].
  rewrite Hcash, Hcash'.
  rewrite (collected_cash_orders_same k s s' eq_refl).
  rewrite !(transactions_total_snoc k _ s s' _ eq_refl). cbn.
  destruct (shift_id =? k); cbn [andb]; [|lia].
  destruct (String.eqb_spec t_type "in") as [->|Hin]; [cbn; lia|].
  destruct (String.eqb_spec t_type "out") as [->|Hout]; lia.
Qed.

Lemma transaction_moves_drawer_witness :
  ∃ stats stats' : ShiftStatistics,
    get_shift_statistics 1 statistics_session = (statistics_session, Return (Some stats)) ∧
    get_shift_statistics 1 (add_shift_transaction 1 30 "in" "change" statistics_session).1
      = ((add_shift_transaction 1 30 "in" "change" statistics_session).1,
         Return (Some stats')) ∧
    stat_theoretical_cash stats' = stat_theoretical_cash stats + 30.
Proof.
  apply (transaction_moves_drawer statistics_session 1 30 "in" "change" 1
           (CashShift.mk 7 0 (Some 500) false None None 0 0 0 0)).
  reflexivity.
Defined.

(** ** Finding the shift of an order *)

Lemma get_open_shift_Some (employee_id : Z) (s : Session) (k : Z) (shift : CashShift.t) :
  get_open_shift employee_id s = (s, Return (Some (k, shift))) →
  shifts s !! k = Some shift ∧ CashShift.employee_id shift = employee_id ∧
  CashShift.is_closed shift = false.
Proof.
  intros [= Hhead].
  apply head_select_where_Some in Hhead as [Hk [He%Z.eqb_eq Hopen%negb_true_iff]%andb_prop].
  done.
Qed.

(** X14. [get_open_shift] answers with a shift only if that shift is in the
    table, belongs to the employee and is not closed; it answers [None]
    exactly when the employee has no open shift; and when each employee has
    at most one open shift it answers with that shift.  It never changes the
    session. *)
Theorem get_open_shift_spec (employee_id : Z) (s : Session) :
  (∃ found, get_open_shift employee_id s = (s, Return found)) ∧
  (∀ k shift,
     get_open_shift employee_id s = (s, Return (Some (k, shift))) →
     shifts s !! k = Some shift ∧ CashShift.employee_id shift = employee_id ∧
     CashShift.is_closed shift = false) ∧
  (get_open_shift employee_id s = (s, Return None) ↔ ¬ has_open_shift employee_id s) ∧
  (one_open_shift s →
   ∀ k shift,
     shifts s !! k = Some shift → CashShift.employee_id shift = employee_id →
     CashShift.is_closed shift = false →
     get_open_shift employee_id s = (s, Return (Some (k, shift)))).
Proof.
  assert (∀ k shift,
     get_open_shift employee_id s = (s, Return (Some (k, shift))) →
     shifts s !! k = Some shift ∧ CashShift.employee_id shift = employee_id ∧
     CashShift.is_closed shift = false) as Hsome.
  { intros k shift. apply get_open_shift_Some. }
  assert (get_open_shift employee_id s = (s, Return None) ↔ ¬ has_open_shift employee_id s)
    as Hnone.
  { rewrite <- get_open_shift_None. unfold get_open_shift, gets. simpl.
    split; [by intros [= ->]|by intros [= ->]]. }
  split_and!; [by eexists|done|done|].
  intros Hone k shift Hk He Hopen.
  destruct (get_open_shift employee_id s) as [s0 r] eqn:Hget.
  assert (s0 = s) as -> by (unfold get_open_shift, gets in Hget; by simplify_eq).
  destruct r as [[[k' shift']|]|err].
  - destruct (Hsome k' shift' eq_refl) as (Hk' & He' & Hopen').
    assert (k' = k) as -> by (apply (Hone k' k shift' shift); congruence).
    by simplify_eq.
  - destruct (proj1 Hnone eq_refl). by exists k, shift.
  - unfold get_open_shift, gets in Hget. by simplify_eq.
Qed.

Lemma get_open_shift_spec_witness :
  get_open_shift 8 two_shift_session
  = (two_shift_session, Return (Some (2, CashShift.mk 8 0 (Some 0) false None None 0 0 0 0))).
Proof.
  apply (proj2 (proj2 (proj2 (get_open_shift_spec 8 two_shift_session)))); try reflexivity.
  unfold one_open_shift, two_shift_session. cbn [shifts].
  intros k1 k2 sh1 sh2 H1 H2.
  apply lookup_insert_Some in H1 as [[<- <-]|[_ [<- <-]%lookup_singleton_Some]];
    apply lookup_insert_Some in H2 as [[<- <-]|[_ [<- <-]%lookup_singleton_Some]];
    by cbn.
Defined.

(** X15. Where [link_order_to_shift] puts an order that has no link: into
    an open shift of the acting employee when that employee has one; else
    into some open shift when there is one; and nowhere, leaving the order as
    it is, when every shift is closed.  A missing acting employee ([None] or
    0) is treated as one without a shift. *)
Theorem link_prefers_own_shift (order : Order.t) (employee_id : option Z) (s : Session) :
  truthy (Order.cash_shift_id order) = false →
  (∀ e, if_truthy employee_id = Some e → has_open_shift e s →
     ∃ k shift,
       shifts s !! k = Some shift ∧ CashShift.employee_id shift = e ∧
       CashShift.is_closed shift = false ∧
       link_order_to_shift order employee_id s
       = (s, Return (set_cash_shift_id (Some k) order))) ∧
  ((∃ k shift, shifts s !! k = Some shift ∧ CashShift.is_closed shift = false) →
   ∃ k shift,
     shifts s !! k = Some shift ∧ CashShift.is_closed shift = false ∧
     link_order_to_shift order employee_id s
     = (s, Return (set_cash_shift_id (Some k) order))) ∧
  ((∀ k shift, shifts s !! k = Some shift → CashShift.is_closed shift = true) →
   link_order_to_shift order employee_id s = (s, Return order)).
Proof.
  intros Hl. split_and!.
  - intros e He Hhas. unfold link_order_to_shift. rewrite Hl, He.
    unfold bind at 1.
    destruct (get_open_shift e s) as [s0 r] eqn:Hget.
    assert (s0 = s) as -> by (unfold get_open_shift, gets in Hget; by simplify_eq).
    destruct r as [[[k shift]|]|err].
    + destruct (get_open_shift_Some e s k shift Hget) as (Hk & Hown & Hopen).
      exists k, shift. by split_and!.
    + apply (f_equal snd) in Hget. cbn [snd] in Hget.
      destruct (proj1 (get_open_shift_None e s) Hget Hhas).
    + unfold get_open_shift, gets in Hget. by simplify_eq.
  - intros (k0 & sh0 & Hk0 & Hopen0).
    destruct (link_order_to_shift_cases order employee_id s)
      as [[Hl' _]|[(_ & k & sh & Hk & Hopen & Heq)|(_ & Hclosed & _)]]; [congruence| |].
    + by exists k, sh.
    + rewrite (Hclosed k0 sh0 Hk0) in Hopen0. done.
  - intros Hclosed.
    destruct (link_order_to_shift_cases order employee_id s)
      as [[Hl' _]|[(_ & k & sh & Hk & Hopen & _)|(_ & _ & Heq)]]; [congruence| |done].
    rewrite (Hclosed k sh Hk) in Hopen. done.
Qed.

Lemma link_prefers_own_shift_witness :
  ∃ k shift,
    shifts two_shift_session !! k = Some shift ∧ CashShift.employee_id shift = 8 ∧
    CashShift.is_closed shift = false ∧
    link_order_to_shift pickup_order (Some 8) two_shift_session
    = (two_shift_session, Return (set_cash_shift_id (Some k) pickup_order)).
Proof.
  apply (proj1 (link_prefers_own_shift pickup_order (Some 8) two_shift_session eq_refl) 8 eq_refl).
  exists 2, (CashShift.mk 8 0 (Some 0) false None None 0 0 0 0). by split_and!.
Defined.

(** ** The status change of an order *)

Lemma operator_found (user_id : Z) (s : Session) :
  is_operator user_id s →
  ∃ op_id op,
    head (select_where
            (λ r, bool_decide (Employee.telegram_user_id r.2 = Some user_id)) (employees s))
    = Some (op_id, op) ∧
    employees s !! op_id = Some op ∧ Employee.telegram_user_id op = Some user_id.
Proof.
  intros (k & emp & Hk & Htg).
  destruct (head _) as [[op_id op]|] eqn:Hhead.
  - exists op_id, op. split; [done|].
    apply head_select_where_Some in Hhead as [Hop HP]. simpl in *.
    split; [done|]. by apply bool_decide_eq_true_1 in HP.
  - pose proof (proj1 (head_select_where_None _ _) Hhead k emp Hk) as HP.
    simpl in HP. by rewrite bool_decide_eq_true_2 in HP.
Qed.

(** The handler once its guards are passed: it saves the order returned by
    the completion block with the new status and adds one history entry. *)
Lemma change_order_status_admin_passes (s : Session) (user_id order_id new_status_id : Z)
    (order : Order.t) (status new_status : OrderStatus.t) :
  is_operator user_id s →
  orders s !! order_id = Some order →
  Order.status_id order ≠ new_status_id →
  statuses s !! Order.status_id order = Some status →
  OrderStatus.is_completed_status status = false →
  OrderStatus.is_cancelled_status status = false →
  statuses s !! new_status_id = Some new_status →
  ∃ op_id op,
    employees s !! op_id = Some op ∧ Employee.telegram_user_id op = Some user_id ∧
    ∀ s1 order1,
      (if OrderStatus.is_completed_status new_status
       then complete_order order op_id else ret order) s = (s1, Return order1) →
      change_order_status_admin user_id order_id new_status_id s
      = (mkSession (shifts s1) (transactions s1)
           (<[order_id := set_status_id new_status_id order1]> (orders s1))
           (employees s1) (statuses s1)
           (history s1 ++
              [OrderStatusHistory.mk order_id new_status_id
                 ("Оператор: " +:+ Employee.full_name op)]),
         Return (StatusChanged (OrderStatus.name new_status)
                   (money_note new_status order1))).
Proof.
  intros Hoper Hord Hne Hstatus Hcompleted Hcancelled Hnew.
  destruct (operator_found user_id s Hoper) as (op_id & op & Hhead & Hop & Htg).
  exists op_id, op. split_and!; [done|done|]. intros s1 order1 Hblock.
  unfold change_order_status_admin.
  cbv beta iota delta [bind gets modify ret raise].
  rewrite Hhead. cbv beta iota. rewrite Hord. cbv beta iota.
  rewrite (proj2 (Z.eqb_neq _ _) Hne), Hstatus. cbv beta iota.
  rewrite Hcompleted, Hcancelled. cbn [orb]. cbv beta iota.
  rewrite Hnew. cbv beta iota. cbn [fst snd].
  cbv beta iota delta [ret] in Hblock. rewrite Hblock. reflexivity.
Qed.

(** X16. An order whose status is a completed or a cancelled one is final
    for the handler: whoever calls and whatever status is asked for, the
    session is left as it is, and an operator asking for another status is
    answered that the order is already closed. *)
Theorem closed_order_is_final (s : Session) (user_id order_id new_status_id : Z)
    (order : Order.t) (status : OrderStatus.t) :
  orders s !! order_id = Some order →
  statuses s !! Order.status_id order = Some status →
  OrderStatus.is_completed_status status || OrderStatus.is_cancelled_status status = true →
  (change_order_status_admin user_id order_id new_status_id s).1 = s ∧
  (is_operator user_id s → Order.status_id order ≠ new_status_id →
   change_order_status_admin user_id order_id new_status_id s = (s, Return OrderAlreadyClosed)).
Proof.
  intros Hord Hstatus Hclosed.
  unfold change_order_status_admin. cbv beta iota delta [bind gets modify ret raise].
  split.
  - destruct (head _) as [[op_id op]|]; [|done]. cbv beta iota.
    rewrite Hord. cbv beta iota. destruct (_ =? _); [done|].
    rewrite Hstatus. cbv beta iota. by rewrite Hclosed.
  - intros Hoper Hne. destruct (operator_found user_id s Hoper) as (op_id & op & -> & _).
    cbv beta iota. rewrite Hord. cbv beta iota.
    rewrite (proj2 (Z.eqb_neq _ _) Hne), Hstatus. cbv beta iota. by rewrite Hclosed.
Qed.

Lemma closed_order_is_final_witness :
  change_order_status_admin 777 22 1 handler_session = (handler_session, Return OrderAlreadyClosed).
Proof.
  refine (proj2 (closed_order_is_final handler_session 777 22 1
                   (Order.mk "cash" 60 true (Some 1) None None 2)
                   (OrderStatus.mk "done" true false) eq_refl eq_refl eq_refl) _ _).
  - exists 7, pickup_operator. by split.
  - discriminate.
Defined.

(** X17. The other refusals of the handler, each leaving the session as it
    is: a caller who is no employee gets the authorization error; an operator
    asking about an unknown order, for the status the order already has, or
    for an unknown status of an open order gets the matching answer. *)
Theorem change_order_status_admin_refusals (s : Session) (user_id order_id new_status_id : Z) :
  (¬ is_operator user_id s →
   change_order_status_admin user_id order_id new_status_id s
   = (s, Return AuthorizationError)) ∧
  (is_operator user_id s → orders s !! order_id = None →
   change_order_status_admin user_id order_id new_status_id s = (s, Return OrderNotFound)) ∧
  (∀ order, is_operator user_id s → orders s !! order_id = Some order →
     Order.status_id order = new_status_id →
     change_order_status_admin user_id order_id new_status_id s
     = (s, Return StatusAlreadySet)) ∧
  (∀ order status, is_operator user_id s → orders s !! order_id = Some order →
     Order.status_id order ≠ new_status_id →
     statuses s !! Order.status_id order = Some status →
     OrderStatus.is_completed_status status = false →
     OrderStatus.is_cancelled_status status = false →
     statuses s !! new_status_id = None →
     change_order_status_admin user_id order_id new_status_id s
     = (s, Return StatusNotFound)).
Proof.
  unfold change_order_status_admin. cbv beta iota delta [bind gets modify ret raise].
  split_and!.
  - intros Hnone. destruct (head _) as [[op_id op]|] eqn:Hhead; [|done].
    apply head_select_where_Some in Hhead as [Hop HP]. simpl in *.
    destruct Hnone. exists op_id, op. split; [done|]. by apply bool_decide_eq_true_1 in HP.
  - intros Hoper Hord. destruct (operator_found user_id s Hoper) as (op_id & op & -> & _).
    cbv beta iota. by rewrite Hord.
  - intros order Hoper Hord Heq.
    destruct (operator_found user_id s Hoper) as (op_id & op & -> & _).
    cbv beta iota. rewrite Hord. cbv beta iota. by rewrite (proj2 (Z.eqb_eq _ _) Heq).
  - intros order status Hoper Hord Hne Hstatus Hcompleted Hcancelled Hnew.
    destruct (operator_found user_id s Hoper) as (op_id & op & -> & _).
    cbv beta iota. rewrite Hord. cbv beta iota.
    rewrite (proj2 (Z.eqb_neq _ _) Hne), Hstatus. cbv beta iota.
    rewrite Hcompleted, Hcancelled. cbn [orb]. cbv beta iota. by rewrite Hnew.
Qed.

Lemma change_order_status_admin_refusals_witness :
  change_order_status_admin 5 20 2 handler_session = (handler_session, Return AuthorizationError) ∧
  change_order_status_admin 777 99 2 handler_session = (handler_session, Return OrderNotFound).
Proof.
  split.
  - apply (proj1 (change_order_status_admin_refusals handler_session 5 20 2)).
    intros (k & emp & Hk & Htg). unfold handler_session in Hk. cbn [employees] in Hk.
    apply lookup_insert_Some in Hk as [[_ <-]|[_ Hk]]; [discriminate Htg|].
    apply lookup_insert_Some in Hk as [[_ <-]|[_ Hk]]; [discriminate Htg|].
    apply lookup_singleton_Some in Hk as [_ <-]. discriminate Htg.
  - apply (proj1 (proj2 (change_order_status_admin_refusals handler_session 777 99 2)));
      [|reflexivity].
    exists 7, pickup_operator. by split.
Defined.

Lemma complete_order_debt (order : Order.t) (operator_id : Z) (s : Session)
    (p : Z) (performer : Employee.t) :
  Order.payment_method order = "cash" →
  if_truthy (Order.courier_id order) = Some p
  ∨ if_truthy (Order.courier_id order) = None
    ∧ if_truthy (Order.accepted_by_waiter_id order) = Some p →
  employees s !! p = Some performer →
  ∃ linked : Order.t,
    (linked = order ∨ ∃ k, linked = set_cash_shift_id (Some k) order) ∧
    complete_order order operator_id s
    = (mkSession (shifts s) (transactions s) (orders s)
         (<[p := Employee.mk (Employee.telegram_user_id performer)
                   (Employee.full_name performer)
                   (Employee.cash_balance performer + Order.total_price order)]>
            (employees s))
         (statuses s) (history s),
       Return (set_is_cash_turned_in false linked)).
Proof.
  intros Hcash Hperf Hemp. unfold complete_order. unfold bind at 1.
  assert (∀ linked, linked = order ∨ (∃ k, linked = set_cash_shift_id (Some k) order) →
    (if String.eqb (Order.payment_method linked) "cash"
     then match if_truthy (Order.courier_id linked) with
          | Some courier_id => register_employee_debt linked courier_id
          | None =>
              match if_truthy (Order.accepted_by_waiter_id linked) with
              | Some waiter_id => register_employee_debt linked waiter_id
              | None => ret (set_is_cash_turned_in true linked)
              end
          end
     else ret linked) s
    = (mkSession (shifts s) (transactions s) (orders s)
         (<[p := Employee.mk (Employee.telegram_user_id performer)
                   (Employee.full_name performer)
                   (Employee.cash_balance performer + Order.total_price order)]>
            (employees s))
         (statuses s) (history s),
       Return (set_is_cash_turned_in false linked))) as Hblock.
  { intros linked Hlinked.
    assert (Order.payment_method linked = "cash" ∧
            Order.courier_id linked = Order.courier_id order ∧
            Order.accepted_by_waiter_id linked = Order.accepted_by_waiter_id order ∧
            Order.total_price linked = Order.total_price order) as (Hc & -> & -> & Ht).
    { by destruct Hlinked as [->|[k ->]]. }
    rewrite Hc. cbn [String.eqb Ascii.eqb Bool.eqb].
    destruct Hperf as [->|[-> ->]];
      rewrite (register_employee_debt_cash linked p s performer Hc Hemp); by rewrite Ht. }
  destruct (link_order_to_shift_cases order (Some operator_id) s)
    as [[_ ->]|[(_ & k & sh & _ & _ & ->)|(_ & _ & ->)]].
  - exists order. split; [by left|]. apply Hblock. by left.
  - eexists. split; [right; by exists k|]. apply Hblock. right. by exists k.
  - exists order. split; [by left|]. apply Hblock. by left.
Qed.

(** X18. When the handler completes a cash order that has a courier, or has
    no courier but a waiter, and that performer is a known employee, the
    total of the order is added to the balance of the performer (the courier
    when both are set) and to no one else's, the order is saved as not turned
    in with the new status, no transaction is written, one history entry is
    added, and the answer says that the money is recorded as a debt. *)
Theorem completion_registers_debt (s : Session) (user_id order_id new_status_id : Z)
    (order : Order.t) (status new_status : OrderStatus.t) (p : Z) (performer : Employee.t) :
  is_operator user_id s →
  orders s !! order_id = Some order →
  Order.status_id order ≠ new_status_id →
  statuses s !! Order.status_id order = Some status →
  OrderStatus.is_completed_status status = false →
  OrderStatus.is_cancelled_status status = false →
  statuses s !! new_status_id = Some new_status →
  OrderStatus.is_completed_status new_status = true →
  Order.payment_method order = "cash" →
  if_truthy (Order.courier_id order) = Some p
  ∨ if_truthy (Order.courier_id order) = None
    ∧ if_truthy (Order.accepted_by_waiter_id order) = Some p →
  employees s !! p = Some performer →
  ∃ (s' : Session) (order' : Order.t) (entry : OrderStatusHistory.t),
    change_order_status_admin user_id order_id new_status_id s
    = (s', Return (StatusChanged (OrderStatus.name new_status) DebtRecorded)) ∧
    employees s'
    = <[p := Employee.mk (Employee.telegram_user_id performer) (Employee.full_name performer)
               (Employee.cash_balance performer + Order.total_price order)]> (employees s) ∧
    orders s' !! order_id = Some order' ∧
    Order.is_cash_turned_in order' = false ∧
    Order.status_id order' = new_status_id ∧
    transactions s' = transactions s ∧
    history s' = history s ++ [entry] ∧
    OrderStatusHistory.order_id entry = order_id ∧
    OrderStatusHistory.status_id entry = new_status_id.
Proof.
  intros Hoper Hord Hne Hstatus Hcompleted Hcancelled Hnew Hdone Hcash Hperf Hemp.
  destruct (change_order_status_admin_passes s user_id order_id new_status_id order status
              new_status Hoper Hord Hne Hstatus Hcompleted Hcancelled Hnew)
    as (op_id & op & _ & _ & Hpass).
  destruct (complete_order_debt order op_id s p performer Hcash Hperf Hemp)
    as (linked & Hlinked & Hblock).
  rewrite Hdone in Hpass. rewrite (Hpass _ _ Hblock).
  assert (Order.payment_method linked = "cash") as Hcash'.
  { by destruct Hlinked as [->|[k ->]]. }
  eexists _, _, _. split.
  { unfold money_note. rewrite Hdone. cbn. rewrite Hcash'. reflexivity. }
  cbn. rewrite lookup_insert_eq. by split_and!.
Qed.

Lemma completion_registers_debt_witness :
  ∃ (s' : Session) (order' : Order.t) (entry : OrderStatusHistory.t),
    change_order_status_admin 777 20 2 handler_session
    = (s', Return (StatusChanged "done" DebtRecorded)) ∧
    employees s' = <[3 := Employee.mk None "Courier" (10 + 120)]> (employees handler_session) ∧
    orders s' !! 20 = Some order' ∧
    Order.is_cash_turned_in order' = false ∧
    Order.status_id order' = 2 ∧
    transactions s' = transactions handler_session ∧
    history s' = history handler_session ++ [entry] ∧
    OrderStatusHistory.order_id entry = 20 ∧
    OrderStatusHistory.status_id entry = 2.
Proof.
  refine (completion_registers_debt handler_session 777 20 2
            (Order.mk "cash" 120 false None (Some 3) (Some 4) 1)
            (OrderStatus.mk "new" false false) (OrderStatus.mk "done" true false)
            3 (Employee.mk None "Courier" 10)
            _ eq_refl _ eq_refl eq_refl eq_refl eq_refl eq_refl eq_refl _ eq_refl).
  - exists 7, pickup_operator. by split.
  - discriminate.
  - by left.
Defined.

(** X19. When the handler completes an order that is not paid in cash, no
    balance changes and no transaction is written; the order is saved with
    the new status and with its turned-in flag as it was, and the answer says
    that the money is accounted for. *)
Theorem completion_without_cash (s : Session) (user_id order_id new_status_id : Z)
    (order : Order.t) (status new_status : OrderStatus.t) :
  is_operator user_id s →
  orders s !! order_id = Some order →
  Order.status_id order ≠ new_status_id →
  statuses s !! Order.status_id order = Some status →
  OrderStatus.is_completed_status status = false →
  OrderStatus.is_cancelled_status status = false →
  statuses s !! new_status_id = Some new_status →
  OrderStatus.is_completed_status new_status = true →
  Order.payment_method order ≠ "cash" →
  ∃ (s' : Session) (order' : Order.t),
    change_order_status_admin user_id order_id new_status_id s
    = (s', Return (StatusChanged (OrderStatus.name new_status) MoneyCounted)) ∧
    employees s' = employees s ∧
    transactions s' = transactions s ∧
    orders s' !! order_id = Some order' ∧
    Order.is_cash_turned_in order' = Order.is_cash_turned_in order ∧
    Order.status_id order' = new_status_id.
Proof.
  intros Hoper Hord Hne Hstatus Hcompleted Hcancelled Hnew Hdone Hcard.
  destruct (change_order_status_admin_passes s user_id order_id new_status_id order status
              new_status Hoper Hord Hne Hstatus Hcompleted Hcancelled Hnew)
    as (op_id & op & _ & _ & Hpass).
  rewrite Hdone in Hpass.
  assert (∃ linked, complete_order order op_id s = (s, Return linked) ∧
            Order.payment_method linked = Order.payment_method order ∧
            Order.is_cash_turned_in linked = Order.is_cash_turned_in order)
    as (linked & Hblock & Hpm & Hflag).
  { unfold complete_order. unfold bind at 1.
    destruct (link_order_to_shift_cases order (Some op_id) s)
      as [[_ ->]|[(_ & k & sh & _ & _ & ->)|(_ & _ & ->)]]; cbn [Order.payment_method set_cash_shift_id];
      rewrite (proj2 (String.eqb_neq _ _) Hcard); by eexists. }
  rewrite (Hpass _ _ Hblock). eexists _, _. split.
  { unfold money_note. rewrite Hdone, Hpm, (proj2 (String.eqb_neq _ _) Hcard). reflexivity. }
  cbn. rewrite lookup_insert_eq. by split_and!.
Qed.

Lemma completion_without_cash_witness :
  ∃ (s' : Session) (order' : Order.t),
    change_order_status_admin 777 21 2 handler_session
    = (s', Return (StatusChanged "done" MoneyCounted)) ∧
    employees s' = employees handler_session ∧
    transactions s' = transactions handler_session ∧
    orders s' !! 21 = Some order' ∧
    Order.is_cash_turned_in order' = false ∧
    Order.status_id order' = 2.
Proof.
  refine (completion_without_cash handler_session 777 21 2
            (Order.mk "card" 90 false None None (Some 4) 1)
            (OrderStatus.mk "new" false false) (OrderStatus.mk "done" true false)
            _ eq_refl _ eq_refl eq_refl eq_refl eq_refl eq_refl _).
  - exists 7, pickup_operator. by split.
  - discriminate.
  - discriminate.
Defined.

(** X20. A change to a status that does not complete the order touches the
    status alone: the order is saved with the new status and every other
    field as it was (it is not linked to a shift), one history entry naming
    the operator is added, and shifts, employees and transactions stay. *)
Theorem plain_status_change (s : Session) (user_id order_id new_status_id : Z)
    (order : Order.t) (status new_status : OrderStatus.t) :
  is_operator user_id s →
  orders s !! order_id = Some order →
  Order.status_id order ≠ new_status_id →
  statuses s !! Order.status_id order = Some status →
  OrderStatus.is_completed_status status = false →
  OrderStatus.is_cancelled_status status = false →
  statuses s !! new_status_id = Some new_status →
  OrderStatus.is_completed_status new_status = false →
  ∃ op_id op,
    employees s !! op_id = Some op ∧ Employee.telegram_user_id op = Some user_id ∧
    change_order_status_admin user_id order_id new_status_id s
    = (mkSession (shifts s) (transactions s)
         (<[order_id := set_status_id new_status_id order]> (orders s))
         (employees s) (statuses s)
         (history s ++
            [OrderStatusHistory.mk order_id new_status_id
               ("Оператор: " +:+ Employee.full_name op)]),
       Return (StatusChanged (OrderStatus.name new_status) NoNote)).
Proof.
  intros Hoper Hord Hne Hstatus Hcompleted Hcancelled Hnew Hplain.
  destruct (change_order_status_admin_passes s user_id order_id new_status_id order status
              new_status Hoper Hord Hne Hstatus Hcompleted Hcancelled Hnew)
    as (op_id & op & Hop & Htg & Hpass).
  exists op_id, op. split_and!; [done|done|].
  rewrite Hplain in Hpass. rewrite (Hpass s order eq_refl).
  unfold money_note. by rewrite Hplain.
Qed.

Lemma plain_status_change_witness :
  ∃ op_id op,
    employees handler_session !! op_id = Some op ∧
    Employee.telegram_user_id op = Some 777 ∧
    change_order_status_admin 777 20 3 handler_session
    = (mkSession (shifts handler_session) (transactions handler_session)
         (<[20 := set_status_id 3 (Order.mk "cash" 120 false None (Some 3) (Some 4) 1)]>
            (orders handler_session))
         (employees handler_session) (statuses handler_session)
         (history handler_session ++
            [OrderStatusHistory.mk 20 3 ("Оператор: " +:+ Employee.full_name op)]),
       Return (StatusChanged "cooking" NoNote)).
Proof.
  refine (plain_status_change handler_session 777 20 3
            (Order.mk "cash" 120 false None (Some 3) (Some 4) 1)
            (OrderStatus.mk "new" false false) (OrderStatus.mk "cooking" false false)
            _ eq_refl _ eq_refl eq_refl eq_refl eq_refl eq_refl).
  - exists 7, pickup_operator. by split.
  - discriminate.
Defined.

(** ** The assignment of a courier *)

(** X21. [assign_courier] changes the courier of an open order and nothing
    else: courier 0 removes the courier, a known employee becomes the
    courier, and the order keeps every other field.  It refuses, leaving the
    session as it is, an unknown order, an order whose status is completed or
    cancelled, and a courier who is no employee. *)
Theorem assign_courier_cases (s : Session) (order_id courier_id : Z) :
  (orders s !! order_id = None →
   assign_courier order_id courier_id s = (s, Return AssignOrderNotFound)) ∧
  (∀ order status,
     orders s !! order_id = Some order →
     statuses s !! Order.status_id order = Some status →
     OrderStatus.is_completed_status status || OrderStatus.is_cancelled_status status = true →
     assign_courier order_id courier_id s = (s, Return AssignOrderClosed)) ∧
  (∀ order status,
     orders s !! order_id = Some order →
     statuses s !! Order.status_id order = Some status →
     OrderStatus.is_completed_status status || OrderStatus.is_cancelled_status status = false →
     (courier_id = 0 →
      assign_courier order_id courier_id s
      = (set_orders (<[order_id := set_courier_id None order]> (orders s)) s,
         Return (CourierAssigned "Не призначений"))) ∧
     (courier_id ≠ 0 → employees s !! courier_id = None →
      assign_courier order_id courier_id s = (s, Return AssignCourierNotFound)) ∧
     (∀ courier, courier_id ≠ 0 → employees s !! courier_id = Some courier →
      assign_courier order_id courier_id s
      = (set_orders (<[order_id := set_courier_id (Some courier_id) order]> (orders s)) s,
         Return (CourierAssigned (Employee.full_name courier))))).
Proof.
  unfold assign_courier. cbv beta iota delta [bind gets modify ret raise]. split_and!.
  - by intros ->.
  - intros order status -> Hstatus Hclosed. cbv beta iota. rewrite Hstatus. cbv beta iota.
    by rewrite Hclosed.
  - intros order status -> Hstatus Hopen. cbv beta iota. rewrite Hstatus. cbv beta iota.
    rewrite Hopen. split_and!.
    + by intros ->.
    + intros Hne Hnone. by rewrite (proj2 (Z.eqb_neq _ _) Hne), Hnone.
    + intros courier Hne Hcourier. by rewrite (proj2 (Z.eqb_neq _ _) Hne), Hcourier.
Qed.

Lemma assign_courier_cases_witness :
  assign_courier 22 3 handler_session = (handler_session, Return AssignOrderClosed) ∧
  assign_courier 21 9 handler_session = (handler_session, Return AssignCourierNotFound).
Proof.
  split.
  - apply (proj1 (proj2 (assign_courier_cases handler_session 22 3))
             (Order.mk "cash" 60 true (Some 1) None None 2)
             (OrderStatus.mk "done" true false)); reflexivity.
  - refine (proj1 (proj2 (proj2 (proj2 (assign_courier_cases handler_session 21 9))
             (Order.mk "card" 90 false None None (Some 4) 1)
             (OrderStatus.mk "new" false false) eq_refl eq_refl eq_refl)) _ eq_refl).
    discriminate.
Defined.

(** X22. The courier assigned is the one who owes: after [assign_courier]
    gives an open cash order to a known employee, completing the order adds
    its total to the balance of that employee, even if a waiter accepted the
    order, and answers that the money is recorded as a debt. *)
Theorem assigned_courier_owes (s : Session) (user_id order_id new_status_id courier_id : Z)
    (order : Order.t) (status new_status : OrderStatus.t) (courier : Employee.t) :
  is_operator user_id s →
  orders s !! order_id = Some order →
  Order.status_id order ≠ new_status_id →
  statuses s !! Order.status_id order = Some status →
  OrderStatus.is_completed_status status = false →
  OrderStatus.is_cancelled_status status = false →
  statuses s !! new_status_id = Some new_status →
  OrderStatus.is_completed_status new_status = true →
  Order.payment_method order = "cash" →
  courier_id ≠ 0 →
  employees s !! courier_id = Some courier →
  let s1 := (assign_courier order_id courier_id s).1 in
  ∃ s2 : Session,
    change_order_status_admin user_id order_id new_status_id s1
    = (s2, Return (StatusChanged (OrderStatus.name new_status) DebtRecorded)) ∧
    employees s2
    = <[courier_id := Employee.mk (Employee.telegram_user_id courier)
                        (Employee.full_name courier)
                        (Employee.cash_balance courier + Order.total_price order)]>
        (employees s).
Proof.
  intros Hoper Hord Hne Hstatus Hcompleted Hcancelled Hnew Hdone Hcash Hc Hcourier s1.
  assert (s1 = set_orders (<[order_id := set_courier_id (Some courier_id) order]> (orders s)) s)
    as ->.
  { unfold s1, assign_courier. cbv beta iota delta [bind gets modify ret raise].
    rewrite Hord. cbv beta iota. rewrite Hstatus. cbv beta iota.
    rewrite Hcompleted, Hcancelled, (proj2 (Z.eqb_neq _ _) Hc). cbn [orb]. cbv beta iota.
    by rewrite Hcourier. }
  set (s1 := set_orders _ s). set (order1 := set_courier_id (Some courier_id) order).
  assert (orders s1 !! order_id = Some order1) as Hord1 by apply lookup_insert_eq.
  destruct (change_order_status_admin_passes s1 user_id order_id new_status_id order1 status
              new_status Hoper Hord1 Hne Hstatus Hcompleted Hcancelled Hnew)
    as (op_id & op & _ & _ & Hpass).
  assert (if_truthy (Order.courier_id order1) = Some courier_id) as Hperf.
  { cbn. by rewrite (proj2 (Z.eqb_neq _ _) Hc). }
  destruct (complete_order_debt order1 op_id s1 courier_id courier Hcash (or_introl Hperf)
              Hcourier) as (linked & Hlinked & Hblock).
  rewrite Hdone in Hpass. rewrite (Hpass _ _ Hblock).
  assert (Order.payment_method linked = "cash") as Hcash'.
  { by destruct Hlinked as [->|[k ->]]. }
  eexists. split.
  { unfold money_note. rewrite Hdone. cbn. rewrite Hcash'. reflexivity. }
  subst s1 order1. cbn [employees set_orders Order.total_price set_courier_id]. reflexivity.
Qed.

Lemma assigned_courier_owes_witness :
  ∃ s2 : Session,
    change_order_status_admin 777 20 2 (assign_courier 20 4 handler_session).1
    = (s2, Return (StatusChanged "done" DebtRecorded)) ∧
    employees s2 = <[4 := Employee.mk None "Waiter" (0 + 120)]> (employees handler_session).
Proof.
  refine (assigned_courier_owes handler_session 777 20 2 4
            (Order.mk "cash" 120 false None (Some 3) (Some 4) 1)
            (OrderStatus.mk "new" false false) (OrderStatus.mk "done" true false)
            (Employee.mk None "Waiter" 0)
            _ eq_refl _ eq_refl eq_refl eq_refl eq_refl eq_refl eq_refl _ eq_refl).
  - exists 7, pickup_operator. by split.
  - discriminate.
  - discriminate.
Defined.

(** ** The total of an edited order *)

Lemma table_sum_zero {A} (w : Z * A → Z) (tbl : gmap Z A) :
  (∀ k v, tbl !! k = Some v → w (k, v) = 0) → table_sum w tbl = 0.
Proof.
  induction tbl as [|k v tbl Hk IH] using map_ind; intros Hall.
  - apply table_sum_empty.
  - rewrite table_sum_insert by done. rewrite IH.
    + rewrite (Hall k v) by apply lookup_insert_eq. lia.
    + intros k' v' Hk'. apply Hall. rewrite lookup_insert_ne; [done|]. intros ->. congruence.
Qed.

Lemma named_price_found (n : string) (products : gmap Z Product.t) (k : Z) (p : Product.t) :
  unique_names products →
  products !! k = Some p → Product.name p = n →
  named_price n products = Product.price p.
Proof.
  intros Huniq Hk Hn. unfold named_price.
  rewrite <- (insert_delete_id products k p Hk) at 1.
  rewrite table_sum_insert by apply lookup_delete_eq. cbn [fst snd].
  rewrite (proj2 (String.eqb_eq _ _) Hn), table_sum_zero; [lia|].
  intros k' p' Hk'. cbn [snd].
  destruct (String.eqb_spec (Product.name p') n) as [Hn'|]; [|done].
  apply lookup_delete_Some in Hk' as [Hne Hk']. destruct Hne.
  apply (Huniq k k' p p'); congruence.
Qed.

Lemma named_price_missing (n : string) (products : gmap Z Product.t) :
  (∀ k p, products !! k = Some p → Product.name p ≠ n) → named_price n products = 0.
Proof.
  intros Hnone. apply table_sum_zero. intros k p Hk. cbn [snd].
  destruct (String.eqb_spec (Product.name p) n) as [Hn|]; [|done]. by destruct (Hnone k p Hk).
Qed.

(** The dictionary built from the rows of a query. *)
Lemma db_products_lookup (rows : list (Z * Product.t)) (d : gmap string Product.t)
    (n : string) :
  (∀ r1 r2, r1 ∈ rows → r2 ∈ rows → Product.name r1.2 = Product.name r2.2 → r1 = r2) →
  (∀ r, r ∈ rows → Product.name r.2 = n →
     fold_left (λ (d : gmap string Product.t) r, <[Product.name r.2 := r.2]> d) rows d !! n
     = Some r.2) ∧
  ((∀ r, r ∈ rows → Product.name r.2 ≠ n) →
     fold_left (λ (d : gmap string Product.t) r, <[Product.name r.2 := r.2]> d) rows d !! n
     = d !! n).
Proof.
  revert d. induction rows as [|r0 rows IH]; intros d Huniq.
  { split; [by intros r Hin%elem_of_nil|done]. }
  assert (∀ r1 r2, r1 ∈ rows → r2 ∈ rows → Product.name r1.2 = Product.name r2.2 → r1 = r2)
    as Huniq'.
  { intros r1 r2 H1 H2. apply Huniq; by apply list_elem_of_further. }
  destruct (IH (<[Product.name r0.2 := r0.2]> d) Huniq') as [IHsome IHnone].
  cbn [fold_left]. split.
  - intros r Hin Hn.
    destruct (decide (Exists (λ r', Product.name r'.2 = n) rows)) as [Hex|Hnex].
    + apply Exists_exists in Hex as (r' & Hin' & Hn').
      assert (r' = r) as ->.
      { apply Huniq; [by apply list_elem_of_further|done|congruence]. }
      by apply IHsome.
    + rewrite IHnone.
      * apply elem_of_cons in Hin as [->|Hin]; [by rewrite <- Hn, lookup_insert_eq|].
        destruct Hnex. apply Exists_exists. by exists r.
      * intros r' Hin' Hn'. destruct Hnex. apply Exists_exists. by exists r'.
  - intros Hnone. rewrite IHnone.
    + rewrite lookup_insert_ne; [done|]. apply Hnone, list_elem_of_here.
    + intros r' Hin'. by apply Hnone, list_elem_of_further.
Qed.

Lemma order_total_loop (db : gmap string Product.t) (items : list (string * Z)) (a : Z) :
  fold_left (λ total (item : string * Z),
      match db !! item.1 with
      | Some product => total + Product.price product * item.2
      | None => total
      end)
    items a
  = a + sum_list_Z ((λ item, match db !! item.1 with
                             | Some product => Product.price product
                             | None => 0
                             end * item.2) <$> items).
Proof.
  revert a. induction items as [|item items IH]; intros a.
  - cbn. lia.
  - cbn [fold_left]. rewrite IH, fmap_cons, sum_list_Z_cons.
    destruct (db !! item.1); lia.
Qed.

(** X23. [recalculate_order_total], on a product table without duplicate
    names, is the sum over the items of the order of quantity times the price
    of the product of that name; an item whose name is no product's is
    passed over and adds nothing, and an empty order totals 0. *)
Theorem recalculate_order_total_sum (products_dict : list (string * Z))
    (products : gmap Z Product.t) :
  unique_names products →
  recalculate_order_total products_dict products
  = sum_list_Z ((λ item, named_price item.1 products * item.2) <$> products_dict).
Proof.
  intros Huniq. unfold recalculate_order_total.
  destruct products_dict as [|item0 items0] eqn:Hdict; [done|]. rewrite <- Hdict. clear Hdict.
  rewrite order_total_loop, Z.add_0_l. f_equal.
  apply list_fmap_ext. intros i item Hitem. f_equal.
  set (rows := select_where _ products).
  assert (∀ r1 r2, r1 ∈ rows → r2 ∈ rows → Product.name r1.2 = Product.name r2.2 → r1 = r2)
    as Hrows.
  { intros [k1 p1] [k2 p2] H1 H2 Hn.
    apply elem_of_select_where in H1 as [H1 _]. apply elem_of_select_where in H2 as [H2 _].
    assert (k1 = k2) as -> by by apply (Huniq k1 k2 p1 p2). congruence. }
  destruct (db_products_lookup rows ∅ item.1 Hrows) as [Hsome Hnone].
  destruct (decide (Exists (λ r, Product.name r.2 = item.1) rows)) as [Hex|Hnex].
  - apply Exists_exists in Hex as ([k p] & Hin & Hn).
    rewrite (Hsome _ Hin Hn). cbn [snd].
    apply elem_of_select_where in Hin as [Hk _].
    symmetry. by apply (named_price_found _ _ k p).
  - rewrite Hnone, lookup_empty.
    + symmetry. apply named_price_missing. intros k p Hk Hn.
      destruct Hnex. apply Exists_exists. exists (k, p). split; [|done].
      apply elem_of_select_where. split; [done|]. cbn [snd].
      apply bool_decide_eq_true_2. rewrite Hn.
      apply list_elem_of_fmap. exists item. split; [done|].
      by apply list_elem_of_lookup_2 in Hitem.
    + intros r Hin Hn. destruct Hnex. apply Exists_exists. by exists r.
Qed.

Lemma recalculate_order_total_sum_witness :
  recalculate_order_total [("Tea", 2); ("Soup of the day", 1); ("Cake", 3)] menu
  = sum_list_Z ((λ item, named_price item.1 menu * item.2)
                  <$> [("Tea", 2); ("Soup of the day", 1); ("Cake", 3)]).
Proof.
  apply recalculate_order_total_sum.
  unfold unique_names, menu. intros k1 k2 p1 p2 H1 H2.
  apply lookup_insert_Some in H1 as [[<- <-]|[_ H1]];
    [|apply lookup_insert_Some in H1 as [[<- <-]|[_ [<- <-]%lookup_singleton_Some]]];
    (apply lookup_insert_Some in H2 as [[<- <-]|[_ H2]];
     [|apply lookup_insert_Some in H2 as [[<- <-]|[_ [<- <-]%lookup_singleton_Some]]]);
    cbn; intros Hn; first [reflexivity|discriminate Hn].
Defined.

(** ** What no call does *)

(** X24. No sequence of calls into the ledger creates or deletes an order,
    and none changes the total or the payment method of an order. *)
Theorem orders_are_kept (ops : list Op) (s : Session) (k : Z) :
  (orders s !! k = None → orders (run_ops ops s) !! k = None) ∧
  (∀ order, orders s !! k = Some order →
     ∃ order', orders (run_ops ops s) !! k = Some order' ∧
       Order.total_price order' = Order.total_price order ∧
       Order.payment_method order' = Order.payment_method order).
Proof.
  assert (orders_step (orders s) (orders (run_ops ops s))) as Hstep.
  { apply (run_ops_invariant (λ s', orders_step (orders s) (orders s')));
      [|apply orders_step_refl].
    intros s1 s2 H1 H12. eapply orders_step_trans; [done|by apply ledger_step_orders]. }
  specialize (Hstep k). split.
  - intros Hnone. rewrite Hnone in Hstep. by inversion Hstep.
  - intros order Hk. rewrite Hk in Hstep.
    inversion Hstep as [? order' Hord Heq1 Heq2|]; subst.
    exists order'. destruct Hord as (Hpm & Htotal & _). by split_and!.
Qed.

Lemma orders_are_kept_witness :
  ∃ order', orders (run_ops over_handover_ops over_handover_session) !! 12 = Some order' ∧
    Order.total_price order' = 70 ∧ Order.payment_method order' = "cash".
Proof.
  apply (proj2 (orders_are_kept over_handover_ops over_handover_session 12)
           (Order.mk "cash" 70 false None None None 1)).
  reflexivity.
Defined.

Lemma ledger_step_transactions (s s' : Session) :
  ledger_step s s' → ∃ added, transactions s' = transactions s ++ added.
Proof.
  intros Hstep.
  destruct Hstep as [|? ? ? ?|? ? ? ? ? ? ?|k o o' s1 h Hk Ho Hs1|? ? ? ? ? ? ? ?|tx]; cbn.
  - exists []. by rewrite app_nil_r.
  - exists []. by rewrite app_nil_r.
  - exists []. by rewrite app_nil_r.
  - exists []. rewrite app_nil_r.
    destruct Hs1 as [->|(linked & _ & Hdebt)]; [done|].
    by apply debt_step_tables in Hdebt as (_ & _ & ?).
  - by eexists.
  - by eexists.
Qed.

(** X25. The transaction log only grows: after every sequence of calls into
    the ledger the log is the earlier log followed by the entries added; no
    entry is changed, moved or removed. *)
Theorem transactions_only_grow (ops : list Op) (s : Session) :
  ∃ added : list CashTransaction.t,
    transactions (run_ops ops s) = transactions s ++ added.
Proof.
  apply (run_ops_invariant (λ s', ∃ added, transactions s' = transactions s ++ added)).
  - intros s1 s2 [added1 H1] H12. destruct (ledger_step_transactions s1 s2 H12) as [added2 H2].
    exists (added1 ++ added2). by rewrite H2, H1, app_assoc.
  - exists []. by rewrite app_nil_r.
Qed.
